(** * Supplier product testing workflow: views, serializers and their audit trail

    A shallow embedding of [core/models.py], [core/serializers.py] and
    [core/views.py].  The relational store is a record of tables, the
    wall clock and [uuid.uuid4] are oracles read through counters, and a
    view is a computation over that world which either returns a value
    or raises. *)

From stdpp Require Import gmap strings list fin_maps pretty.
From Stdlib Require Import ZArith Ascii.

Local Open Scope Z_scope.

(** ** Scalars *)

(** [uuid.UUID] by its 128-bit integer value. *)
Abbreviation UUID := N (only parsing).

(** [datetime] as microseconds since the epoch; a [timedelta] is a
    difference of two of them. *)
Abbreviation Time := Z (only parsing).

(** JSON payload of a [JSONField], kept as its text. *)
Abbreviation JSON := string (only parsing).

Definition timedelta (days : Z) : Z := days * 86400 * 1000000.

Definition seconds (s : Z) : Z := s * 1000000.

Definition empty_dict : JSON := "{}".

Definition quote : string := String "034"%char EmptyString.

(** Python's [a != b] on [str]. *)
Definition str_ne (a b : string) : bool := negb (String.eqb a b).

(** Truth value of an optional [str]: [None] and the empty string are false. *)
Definition truthy (v : option string) : bool :=
  match v with
  | None => false
  | Some s => str_ne s EmptyString
  end.

Definition hex_char (d : N) : ascii :=
  match d with
  | 0 => "0" | 1 => "1" | 2 => "2" | 3 => "3" | 4 => "4" | 5 => "5"
  | 6 => "6" | 7 => "7" | 8 => "8" | 9 => "9" | 10 => "a" | 11 => "b"
  | 12 => "c" | 13 => "d" | 14 => "e" | _ => "f"
  end%N%char.

(** The [k] low hexadecimal digits of [n], most significant first. *)
Fixpoint hex (k : nat) (n : N) : string :=
  match k with
  | O => EmptyString
  | S k' => hex k' (N.shiftr n 4) +:+ String (hex_char (N.land n 15)) EmptyString
  end.

(** [str(uuid)]: the 8-4-4-4-12 rendering. *)
Definition str_uuid (u : UUID) : string :=
  hex 8 (N.shiftr u 96) +:+ "-" +:+ hex 4 (N.shiftr u 80) +:+ "-" +:+
  hex 4 (N.shiftr u 64) +:+ "-" +:+ hex 4 (N.shiftr u 48) +:+ "-" +:+ hex 12 u.

(** ** models.py *)

Module Supplier.
Record t := mk {
  supplier_id : UUID;
  username : string;
  email : string;
  is_staff : bool;
  status : string
}.
End Supplier.

Module Product.
Record t := mk {
  product_id : UUID;
  supplier : UUID;
  name : string;
  description : option string;
  category : string;
  sku : option string;
  submission_status : string;
  submission_date : option Time;
  review_date : option Time;
  completion_date : option Time;
  metadata : JSON;
  created_at : Time;
  updated_at : Time;
  version : Z
}.

Definition set_submission_status (v : string) (p : t) : t :=
  mk (product_id p) (supplier p) (name p) (description p) (category p) (sku p)
     v (submission_date p) (review_date p) (completion_date p) (metadata p)
     (created_at p) (updated_at p) (version p).

Definition set_submission_date (v : option Time) (p : t) : t :=
  mk (product_id p) (supplier p) (name p) (description p) (category p) (sku p)
     (submission_status p) v (review_date p) (completion_date p) (metadata p)
     (created_at p) (updated_at p) (version p).

Definition set_updated_at (v : Time) (p : t) : t :=
  mk (product_id p) (supplier p) (name p) (description p) (category p) (sku p)
     (submission_status p) (submission_date p) (review_date p) (completion_date p)
     (metadata p) (created_at p) v (version p).
End Product.

Module Test.
Record t := mk {
  test_id : UUID;
  product : UUID;
  test_type : string;
  test_name : string;
  status : string;
  priority : string;
  assigned_to : option string;
  scheduled_date : option Time;
  started_at : option Time;
  completed_at : option Time;
  result_summary : option string;
  result_status : option string;
  result_file_url : option string;
  result_data : JSON;
  notes : option string;
  created_at : Time;
  updated_at : Time
}.

Definition set_status (v : string) (x : t) : t :=
  mk (test_id x) (product x) (test_type x) (test_name x) v (priority x)
     (assigned_to x) (scheduled_date x) (started_at x) (completed_at x)
     (result_summary x) (result_status x) (result_file_url x) (result_data x)
     (notes x) (created_at x) (updated_at x).

Definition set_started_at (v : option Time) (x : t) : t :=
  mk (test_id x) (product x) (test_type x) (test_name x) (status x) (priority x)
     (assigned_to x) (scheduled_date x) v (completed_at x)
     (result_summary x) (result_status x) (result_file_url x) (result_data x)
     (notes x) (created_at x) (updated_at x).

Definition set_completed_at (v : option Time) (x : t) : t :=
  mk (test_id x) (product x) (test_type x) (test_name x) (status x) (priority x)
     (assigned_to x) (scheduled_date x) (started_at x) v
     (result_summary x) (result_status x) (result_file_url x) (result_data x)
     (notes x) (created_at x) (updated_at x).

Definition set_result_summary (v : option string) (x : t) : t :=
  mk (test_id x) (product x) (test_type x) (test_name x) (status x) (priority x)
     (assigned_to x) (scheduled_date x) (started_at x) (completed_at x)
     v (result_status x) (result_file_url x) (result_data x)
     (notes x) (created_at x) (updated_at x).

Definition set_result_status (v : option string) (x : t) : t :=
  mk (test_id x) (product x) (test_type x) (test_name x) (status x) (priority x)
     (assigned_to x) (scheduled_date x) (started_at x) (completed_at x)
     (result_summary x) v (result_file_url x) (result_data x)
     (notes x) (created_at x) (updated_at x).

Definition set_result_data (v : JSON) (x : t) : t :=
  mk (test_id x) (product x) (test_type x) (test_name x) (status x) (priority x)
     (assigned_to x) (scheduled_date x) (started_at x) (completed_at x)
     (result_summary x) (result_status x) (result_file_url x) v
     (notes x) (created_at x) (updated_at x).

Definition set_updated_at (v : Time) (x : t) : t :=
  mk (test_id x) (product x) (test_type x) (test_name x) (status x) (priority x)
     (assigned_to x) (scheduled_date x) (started_at x) (completed_at x)
     (result_summary x) (result_status x) (result_file_url x) (result_data x)
     (notes x) (created_at x) v.
End Test.

Module TestHistory.
Record t := mk {
  history_id : UUID;
  test : UUID;
  changed_by : string;
  change_type : string;
  old_status : option string;
  new_status : option string;
  change_description : option string;
  changed_at : Time;
  metadata : JSON
}.
End TestHistory.

Module Report.
Record t := mk {
  report_id : UUID;
  product : UUID;
  report_type : string;
  report_format : string;
  report_url : option string;
  s3_bucket : option string;
  s3_key : option string;
  status : string;
  generated_at : option Time;
  expires_at : option Time;
  file_size : option Z;
  checksum : option string;
  metadata : JSON;
  created_at : Time
}.

Definition set_report_url (v : option string) (r : t) : t :=
  mk (report_id r) (product r) (report_type r) (report_format r) v
     (s3_bucket r) (s3_key r) (status r) (generated_at r) (expires_at r)
     (file_size r) (checksum r) (metadata r) (created_at r).

Definition set_status (v : string) (r : t) : t :=
  mk (report_id r) (product r) (report_type r) (report_format r) (report_url r)
     (s3_bucket r) (s3_key r) v (generated_at r) (expires_at r)
     (file_size r) (checksum r) (metadata r) (created_at r).

Definition set_generated_at (v : option Time) (r : t) : t :=
  mk (report_id r) (product r) (report_type r) (report_format r) (report_url r)
     (s3_bucket r) (s3_key r) (status r) v (expires_at r)
     (file_size r) (checksum r) (metadata r) (created_at r).

Definition set_expires_at (v : option Time) (r : t) : t :=
  mk (report_id r) (product r) (report_type r) (report_format r) (report_url r)
     (s3_bucket r) (s3_key r) (status r) (generated_at r) v
     (file_size r) (checksum r) (metadata r) (created_at r).

Definition set_created_at (v : Time) (r : t) : t :=
  mk (report_id r) (product r) (report_type r) (report_format r) (report_url r)
     (s3_bucket r) (s3_key r) (status r) (generated_at r) (expires_at r)
     (file_size r) (checksum r) (metadata r) v.
End Report.

Module Notification.
Record t := mk {
  notification_id : UUID;
  recipient_id : UUID;
  recipient_type : string;
  notification_type : string;
  subject : string;
  message : string;
  status : string;
  sent_at : option Time;
  read_at : option Time;
  created_at : Time;
  metadata : JSON
}.
End Notification.

(** ** The world a request runs in *)

(** A [threading.Timer] that has been started: its interval and the
    closure it will call.  The only closure in the code base is
    [complete_report], which captures the in-memory [report] object. *)
Record Timer := {
  interval : Z;
  captured_report : Report.t
}.

(** The tables of the relational store, the started timers, and the two
    oracles.  Tables whose rows are fetched by primary key are maps from
    the key; [test_history] and [notifications] hold their rows in
    insertion order.
    [clock n] is what the [n]-th call of [timezone.now()] returns and
    [uuid_source n] what the [n]-th call of [uuid.uuid4()] returns. *)
Record World := {
  suppliers : gmap UUID Supplier.t;
  products : gmap UUID Product.t;
  tests : gmap UUID Test.t;
  test_history : list TestHistory.t;
  reports : gmap UUID Report.t;
  notifications : list Notification.t;
  timers : list Timer;
  clock : nat -> Time;
  clock_reads : nat;
  uuid_source : nat -> UUID;
  uuid_draws : nat
}.

Definition set_products (v : gmap UUID Product.t) (w : World) : World :=
  Build_World (suppliers w) v (tests w) (test_history w) (reports w)
    (notifications w) (timers w) (clock w) (clock_reads w) (uuid_source w) (uuid_draws w).

Definition set_tests (v : gmap UUID Test.t) (w : World) : World :=
  Build_World (suppliers w) (products w) v (test_history w) (reports w)
    (notifications w) (timers w) (clock w) (clock_reads w) (uuid_source w) (uuid_draws w).

Definition set_test_history (v : list TestHistory.t) (w : World) : World :=
  Build_World (suppliers w) (products w) (tests w) v (reports w)
    (notifications w) (timers w) (clock w) (clock_reads w) (uuid_source w) (uuid_draws w).

Definition set_reports (v : gmap UUID Report.t) (w : World) : World :=
  Build_World (suppliers w) (products w) (tests w) (test_history w) v
    (notifications w) (timers w) (clock w) (clock_reads w) (uuid_source w) (uuid_draws w).

Definition set_notifications (v : list Notification.t) (w : World) : World :=
  Build_World (suppliers w) (products w) (tests w) (test_history w) (reports w)
    v (timers w) (clock w) (clock_reads w) (uuid_source w) (uuid_draws w).

Definition set_timers (v : list Timer) (w : World) : World :=
  Build_World (suppliers w) (products w) (tests w) (test_history w) (reports w)
    (notifications w) v (clock w) (clock_reads w) (uuid_source w) (uuid_draws w).

Definition set_clock_reads (v : nat) (w : World) : World :=
  Build_World (suppliers w) (products w) (tests w) (test_history w) (reports w)
    (notifications w) (timers w) (clock w) v (uuid_source w) (uuid_draws w).

Definition set_uuid_draws (v : nat) (w : World) : World :=
  Build_World (suppliers w) (products w) (tests w) (test_history w) (reports w)
    (notifications w) (timers w) (clock w) (clock_reads w) (uuid_source w) v.

(** ** Computations that read and write the world, and may raise *)

(** [Http404] comes from [get_object], [DoesNotExist] and
    [IntegrityError] from the store, [PermissionDenied] is the
    framework's refusal of a caller. *)
Inductive Exn := Http404 | PermissionDenied | DoesNotExist | IntegrityError.

Inductive Result (A : Type) :=
| Return (a : A)
| Raise (e : Exn).
Arguments Return {A} a.
Arguments Raise {A} e.

(** Writes made before an exception stay: the views run outside any
    transaction. *)
Definition M (A : Type) : Type := World -> Result A * World.

#[global] Instance M_ret : MRet M := fun A a w => (Return a, w).

#[global] Instance M_bind : MBind M := fun A B f m w =>
  match m w with
  | (Return a, w') => f a w'
  | (Raise e, w') => (Raise e, w')
  end.

Definition raise {A} (e : Exn) : M A := fun w => (Raise e, w).

Definition get_world : M World := fun w => (Return w, w).

Definition modify (f : World -> World) : M unit := fun w => (Return tt, f w).

(** [timezone.now()] *)
Definition timezone_now : M Time := fun w =>
  (Return (clock w (clock_reads w)), set_clock_reads (S (clock_reads w)) w).

(** [uuid.uuid4()] *)
Definition uuid4 : M UUID := fun w =>
  (Return (uuid_source w (uuid_draws w)), set_uuid_draws (S (uuid_draws w)) w).

(** ** The store's constraints *)

(** Every row is filed under its own primary key. *)
Definition primary_keys (w : World) : Prop :=
  map_Forall (fun k x => Supplier.supplier_id x = k) (suppliers w) /\
  map_Forall (fun k x => Product.product_id x = k) (products w) /\
  map_Forall (fun k x => Test.test_id x = k) (tests w) /\
  map_Forall (fun k x => Report.report_id x = k) (reports w).

(** Every foreign key points at a stored row ([on_delete=CASCADE] never
    leaves a dangling reference). *)
Definition foreign_keys (w : World) : Prop :=
  map_Forall (fun _ x => is_Some (suppliers w !! Product.supplier x)) (products w) /\
  map_Forall (fun _ x => is_Some (products w !! Test.product x)) (tests w) /\
  map_Forall (fun _ x => is_Some (products w !! Report.product x)) (reports w) /\
  Forall (fun h => is_Some (tests w !! TestHistory.test h)) (test_history w).

Definition consistent (w : World) : Prop := primary_keys w /\ foreign_keys w.

#[global] Instance consistent_dec w : Decision (consistent w).
Proof. unfold consistent, primary_keys, foreign_keys. apply _. Defined.

(** ** Model instances and managers *)

(** [product.save()] on a loaded instance: [auto_now] stamps
    [updated_at], then the row is written under its primary key. *)
Definition Product_save (p : Product.t) : M Product.t :=
  now ← timezone_now;
  let p := Product.set_updated_at now p in
  w ← get_world;
  match suppliers w !! Product.supplier p with
  | None => raise IntegrityError
  | Some _ =>
      modify (fun w => set_products (<[Product.product_id p := p]> (products w)) w);;
      mret p
  end.

(** [test.save()] on a loaded instance. *)
Definition Test_save (x : Test.t) : M Test.t :=
  now ← timezone_now;
  let x := Test.set_updated_at now x in
  w ← get_world;
  match products w !! Test.product x with
  | None => raise IntegrityError
  | Some _ =>
      modify (fun w => set_tests (<[Test.test_id x := x]> (tests w)) w);;
      mret x
  end.

(** [report.save()] on a loaded instance.  [Report] has no [auto_now]
    field, so while the row is there the save is an [UPDATE] of it as it
    stands.  When the row is gone the [UPDATE] hits nothing and the save
    falls back to an [INSERT], for which [auto_now_add] stamps
    [created_at] anew, with one more reading of the clock; the store then
    refuses a dangling product. *)
Definition Report_save (r : Report.t) : M Report.t :=
  w ← get_world;
  match reports w !! Report.report_id r with
  | Some _ =>
      match products w !! Report.product r with
      | None => raise IntegrityError
      | Some _ =>
          modify (fun w => set_reports (<[Report.report_id r := r]> (reports w)) w);;
          mret r
      end
  | None =>
      created_at ← timezone_now;
      let r := Report.set_created_at created_at r in
      w ← get_world;
      match products w !! Report.product r with
      | None => raise IntegrityError
      | Some _ =>
          modify (fun w => set_reports (<[Report.report_id r := r]> (reports w)) w);;
          mret r
      end
  end.

(** [TestHistory.objects.create(test=..., changed_by=..., ...)]: the
    instance takes its defaults ([history_id] from [uuid4], [metadata]
    from [dict]), [auto_now_add] stamps [changed_at], and the row is
    inserted. *)
Definition TestHistory_objects_create (test : Test.t) (changed_by change_type : string)
    (old_status new_status change_description : option string) : M TestHistory.t :=
  history_id ← uuid4;
  changed_at ← timezone_now;
  let h := TestHistory.mk history_id (Test.test_id test) changed_by change_type
             old_status new_status change_description changed_at empty_dict in
  w ← get_world;
  match tests w !! Test.test_id test with
  | None => raise IntegrityError
  | Some _ =>
      modify (fun w => set_test_history (test_history w ++ [h]) w);;
      mret h
  end.

(** [Notification.objects.create(recipient_id=..., ...)] *)
Definition Notification_objects_create (recipient_id : UUID)
    (recipient_type notification_type subject message status : string)
    (sent_at : option Time) : M Notification.t :=
  notification_id ← uuid4;
  created_at ← timezone_now;
  let n := Notification.mk notification_id recipient_id recipient_type
             notification_type subject message status sent_at None created_at
             empty_dict in
  modify (fun w => set_notifications (notifications w ++ [n]) w);;
  mret n.

(** ** Requests and responses *)

(** [request.query_params], by the keys the views read. *)
Record QueryParams := {
  q_product_id : option UUID;
  q_status : option string;
  q_type : option string;
  q_category : option string;
  q_search : option string
}.

(** An authenticated request ([IsAuthenticated] has let it through):
    [request.user], [request.query_params] and [request.data]. *)
Record Request := {
  user : Supplier.t;
  query_params : QueryParams;
  data : gmap string string
}.

(** What a [Response] carries.  A serializer's [.data] is represented by
    the instance it renders. *)
Inductive Body :=
| ErrorBody (code message : string)
| ProductBody (p : Product.t) (message : string)
| TestBody (x : Test.t)
| ReportBody (r : Report.t) (download_url : option string)
| DownloadBody (report_id download_url expires_in message : string)
| NoBody.

Record Response := {
  body : Body;
  status_code : Z
}.

Definition HTTP_200_OK : Z := 200.
Definition HTTP_204_NO_CONTENT : Z := 204.
Definition HTTP_400_BAD_REQUEST : Z := 400.

(** [Response({'error': {'code': ..., 'message': ...}}, status=...)] *)
Definition error_response (code message : string) (status : Z) : Response :=
  {| body := ErrorBody code message; status_code := status |}.

(** [queryset.get(pk=pk)] inside [get_object]: [Http404] when the
    queryset has no such row. *)
Definition get_object_or_404 {A} (queryset : gmap UUID A) (pk : UUID) : M A :=
  match queryset !! pk with
  | Some x => mret x
  | None => raise Http404
  end.

(** [str(v)] inside an f-string, for a nullable text column. *)
Definition format_opt (v : option string) : string := default "None" v.

(** Following a foreign key that was not joined in: a lazy fetch of
    [product.supplier]. *)
Definition Product_supplier (p : Product.t) : M Supplier.t :=
  w ← get_world;
  match suppliers w !! Product.supplier p with
  | Some s => mret s
  | None => raise DoesNotExist
  end.

(** ** [instance.delete()] *)

(** Deleting a test: the rows that point at it go with it
    ([TestHistory.test] is [on_delete=CASCADE]), then the test itself. *)
Definition Test_delete (x : Test.t) : M unit :=
  modify (fun w =>
    set_tests (delete (Test.test_id x) (tests w))
      (set_test_history
         (filter (fun h => TestHistory.test h <> Test.test_id x) (test_history w)) w)).

(** Deleting a product: its tests, the history records of those tests
    and its reports go with it ([Test.product] and [Report.product] are
    [on_delete=CASCADE], and so is [TestHistory.test]), then the product
    itself. *)
Definition Product_delete (p : Product.t) : M unit :=
  modify (fun w =>
    let product_id := Product.product_id p in
    let its_tests := filter (fun kv => Test.product kv.2 = product_id) (tests w) in
    set_products (delete product_id (products w))
      (set_reports (filter (fun kv => Report.product kv.2 <> product_id) (reports w))
         (set_tests (filter (fun kv => Test.product kv.2 <> product_id) (tests w))
            (set_test_history
               (filter (fun h => its_tests !! TestHistory.test h = None)
                  (test_history w)) w)))).

(** ** rest_framework.filters.SearchFilter *)

Module SearchFilter.

(** White space as [str.split()] sees it, within ASCII. *)
Definition is_whitespace (c : ascii) : bool :=
  let n := N_of_ascii c in
  ((9 <=? n) && (n <=? 13) || (28 <=? n) && (n <=? 32))%N.

(** The parameter with its NUL characters dropped and its commas read
    as blanks. *)
Fixpoint clean (params : string) : string :=
  match params with
  | EmptyString => EmptyString
  | String c rest =>
      if Ascii.eqb c "000"%char then clean rest
      else if Ascii.eqb c ","%char then String " "%char (clean rest)
      else String c (clean rest)
  end.

(** [params.split()]: the runs of characters between white space;
    [word] is the run read so far. *)
Fixpoint split (word params : string) : list string :=
  match params with
  | EmptyString => if String.eqb word EmptyString then [] else [word]
  | String c rest =>
      if is_whitespace c
      then (if String.eqb word EmptyString then [] else [word]) ++ split EmptyString rest
      else split (word +:+ String c EmptyString) rest
  end.

(** [get_search_terms]: the terms of the [search] parameter. *)
Definition get_search_terms (request : Request) : list string :=
  let params := default EmptyString (q_search (query_params request)) in
  split EmptyString (clean params).

(** What [icontains] ignores: the case of an ASCII letter. *)
Definition lower (c : ascii) : ascii :=
  let n := N_of_ascii c in
  if ((65 <=? n) && (n <=? 90))%N then ascii_of_N (n + 32) else c.

Fixpoint casefold (s : string) : string :=
  match s with
  | EmptyString => EmptyString
  | String c rest => String (lower c) (casefold rest)
  end.

(** [needle] occurs somewhere in [haystack]. *)
Fixpoint contains (needle haystack : string) : bool :=
  String.prefix needle haystack
  || match haystack with
     | EmptyString => false
     | String _ rest => contains needle rest
     end.

(** The lookup [field__icontains=term]; a [NULL] column matches no
    term. *)
Definition icontains (term : string) (field : option string) : bool :=
  match field with
  | None => false
  | Some value => contains (casefold term) (casefold value)
  end.

(** Every term occurs in one of the fields. *)
Definition matches (search_terms : list string) (fields : list (option string)) : bool :=
  forallb (fun term => existsb (icontains term) fields) search_terms.

End SearchFilter.

(** ** views.py: ProductViewSet *)

Module ProductViewSet.

(** Rows come joined with their supplier ([select_related]). *)
Definition get_queryset (request : Request) (w : World)
    : gmap UUID (Product.t * Supplier.t) :=
  let queryset :=
    omap (fun p => s ← suppliers w !! Product.supplier p; Some (p, s)) (products w) in
  let queryset :=
    if negb (Supplier.is_staff (user request))
    then filter (fun kv => Product.supplier kv.2.1
                           = Supplier.supplier_id (user request)) queryset
    else queryset in
  let submission_status := q_status (query_params request) in
  let queryset :=
    if truthy submission_status
    then filter (fun kv => Some (Product.submission_status kv.2.1)
                           = submission_status) queryset
    else queryset in
  let category := q_category (query_params request) in
  let queryset :=
    if truthy category
    then filter (fun kv => Some (Product.category kv.2.1) = category) queryset
    else queryset in
  queryset.

(** [search_fields = ['name', 'category', 'sku']] *)
Definition search_fields (p : Product.t) : list (option string) :=
  [Some (Product.name p); Some (Product.category p); Product.sku p].

(** [filter_queryset] runs the [filter_backends] over a queryset.
    [SearchFilter] leaves it alone when the request carries no search
    term and otherwise keeps the rows in which every term occurs in one
    of the [search_fields]; [OrderingFilter] only puts the rows in an
    order, which a lookup by key does not see. *)
Definition filter_queryset (request : Request)
    (queryset : gmap UUID (Product.t * Supplier.t))
    : gmap UUID (Product.t * Supplier.t) :=
  let search_terms := SearchFilter.get_search_terms request in
  match search_terms with
  | [] => queryset
  | _ :: _ =>
      filter (fun kv => SearchFilter.matches search_terms (search_fields kv.2.1) = true)
        queryset
  end.

(** The framework's [get_object]: a lookup by key in
    [filter_queryset(get_queryset())]. *)
Definition get_object (request : Request) (pk : UUID)
    : M (Product.t * Supplier.t) :=
  w ← get_world;
  get_object_or_404 (filter_queryset request (get_queryset request w)) pk.

Definition submit (request : Request) (pk : UUID) : M Response :=
  '(product, supplier) ← get_object request pk;
  if str_ne (Product.submission_status product) "draft" then
    mret (error_response "INVALID_STATE"
            "Product already submitted or cannot be submitted"
            HTTP_400_BAD_REQUEST)
  else
    let product := Product.set_submission_status "submitted" product in
    now ← timezone_now;
    let product := Product.set_submission_date (Some now) product in
    product ← Product_save product;
    sent_at ← timezone_now;
    Notification_objects_create
      (Supplier.supplier_id supplier)
      "supplier"
      "product_submitted"
      "Product Submitted"
      ("Your product " +:+ quote +:+ Product.name product +:+ quote
         +:+ " has been submitted for testing.")
      "sent"
      (Some sent_at);;
    mret {| body := ProductBody product "Product submitted successfully for testing";
            status_code := HTTP_200_OK |}.

(** The inherited [destroy]: [get_object], [instance.delete()], and an
    empty 204. *)
Definition destroy (request : Request) (pk : UUID) : M Response :=
  '(product, _) ← get_object request pk;
  Product_delete product;;
  mret {| body := NoBody; status_code := HTTP_204_NO_CONTENT |}.

End ProductViewSet.

(** ** serializers.py: TestSerializer *)

Module TestSerializer.

(** [validated_data]: one optional entry per writable field of
    [Meta.fields]; a nullable column may be written with [None]. *)
Record validated_data := {
  product : option UUID;
  test_type : option string;
  test_name : option string;
  status : option string;
  priority : option string;
  assigned_to : option (option string);
  scheduled_date : option (option Time);
  started_at : option (option Time);
  completed_at : option (option Time);
  result_summary : option (option string);
  result_status : option (option string);
  result_file_url : option (option string);
  result_data : option JSON;
  notes : option (option string)
}.

(** [for attr, value in validated_data.items(): setattr(instance, attr, value)] *)
Definition setattrs (instance : Test.t) (vd : validated_data) : Test.t :=
  Test.mk (Test.test_id instance)
    (default (Test.product instance) (product vd))
    (default (Test.test_type instance) (test_type vd))
    (default (Test.test_name instance) (test_name vd))
    (default (Test.status instance) (status vd))
    (default (Test.priority instance) (priority vd))
    (default (Test.assigned_to instance) (assigned_to vd))
    (default (Test.scheduled_date instance) (scheduled_date vd))
    (default (Test.started_at instance) (started_at vd))
    (default (Test.completed_at instance) (completed_at vd))
    (default (Test.result_summary instance) (result_summary vd))
    (default (Test.result_status instance) (result_status vd))
    (default (Test.result_file_url instance) (result_file_url vd))
    (default (Test.result_data instance) (result_data vd))
    (default (Test.notes instance) (notes vd))
    (Test.created_at instance)
    (Test.updated_at instance).

(** [ModelSerializer.update] *)
Definition super_update (instance : Test.t) (vd : validated_data) : M Test.t :=
  Test_save (setattrs instance vd).

(** ['status' in validated_data and validated_data['status'] != instance.status] *)
Definition status_changes (instance : Test.t) (vd : validated_data) : bool :=
  match status vd with
  | Some s => str_ne s (Test.status instance)
  | None => false
  end.

Definition update (request : Request) (instance : Test.t) (vd : validated_data)
    : M Test.t :=
  (if status_changes instance vd then
     TestHistory_objects_create instance
       (Supplier.username (user request))
       "status_update"
       (Some (Test.status instance))
       (status vd)
       None;;
     mret tt
   else mret tt : M unit);;
  super_update instance vd.

(** [ModelSerializer.create]: [Test.objects.create] on the validated data.
    Absent keys take the column defaults; [auto_now_add] and [auto_now]
    each read the clock; a missing or dangling [product] is refused by
    the store, as is a primary key already taken. *)
Definition create (vd : validated_data) : M Test.t :=
  test_id ← uuid4;
  created_at ← timezone_now;
  updated_at ← timezone_now;
  w ← get_world;
  match product vd with
  | None => raise IntegrityError
  | Some product_id =>
      let x := Test.mk test_id product_id
                 (default EmptyString (test_type vd))
                 (default EmptyString (test_name vd))
                 (default "pending" (status vd))
                 (default "medium" (priority vd))
                 (default None (assigned_to vd))
                 (default None (scheduled_date vd))
                 (default None (started_at vd))
                 (default None (completed_at vd))
                 (default None (result_summary vd))
                 (default None (result_status vd))
                 (default None (result_file_url vd))
                 (default empty_dict (result_data vd))
                 (default None (notes vd))
                 created_at updated_at in
      match products w !! product_id, tests w !! test_id with
      | Some _, None =>
          modify (fun w => set_tests (<[test_id := x]> (tests w)) w);;
          mret x
      | _, _ => raise IntegrityError
      end
  end.

End TestSerializer.

(** ** views.py: TestViewSet *)

Module TestViewSet.

(** Rows come joined with their product ([select_related]); nothing
    restricts them to the caller's own products. *)
Definition get_queryset (request : Request) (w : World)
    : gmap UUID (Test.t * Product.t) :=
  let queryset :=
    omap (fun x => p ← products w !! Test.product x; Some (x, p)) (tests w) in
  let product_id := q_product_id (query_params request) in
  let queryset :=
    match product_id with
    | Some product_id => filter (fun kv => Test.product kv.2.1 = product_id) queryset
    | None => queryset
    end in
  let test_status := q_status (query_params request) in
  let queryset :=
    if truthy test_status
    then filter (fun kv => Some (Test.status kv.2.1) = test_status) queryset
    else queryset in
  let test_type := q_type (query_params request) in
  let queryset :=
    if truthy test_type
    then filter (fun kv => Some (Test.test_type kv.2.1) = test_type) queryset
    else queryset in
  queryset.

Definition get_object (request : Request) (pk : UUID) : M (Test.t * Product.t) :=
  w ← get_world;
  get_object_or_404 (get_queryset request w) pk.

(** Returns [serializer.instance] as [serializer.save()] leaves it. *)
Definition perform_create (request : Request) (vd : TestSerializer.validated_data)
    : M Test.t :=
  test ← TestSerializer.create vd;
  TestHistory_objects_create test
    (Supplier.username (user request))
    "test_created"
    None
    (Some (Test.status test))
    None;;
  mret test.

(** The framework's [UpdateModelMixin]: fetch the instance, then
    [serializer.save()], which calls [TestSerializer.update] on the
    validated data. *)
Definition update (request : Request) (pk : UUID)
    (vd : TestSerializer.validated_data) : M Response :=
  '(instance, _) ← get_object request pk;
  instance ← TestSerializer.update request instance vd;
  mret {| body := TestBody instance; status_code := HTTP_200_OK |}.

Definition start (request : Request) (pk : UUID) : M Response :=
  '(test, _) ← get_object request pk;
  if str_ne (Test.status test) "scheduled" then
    mret (error_response "INVALID_STATE" "Test is not in scheduled state"
            HTTP_400_BAD_REQUEST)
  else
    let test := Test.set_status "in_progress" test in
    now ← timezone_now;
    let test := Test.set_started_at (Some now) test in
    test ← Test_save test;
    TestHistory_objects_create test
      (Supplier.username (user request))
      "test_started"
      (Some "scheduled")
      (Some "in_progress")
      None;;
    mret {| body := TestBody test; status_code := HTTP_200_OK |}.

Definition complete (request : Request) (pk : UUID) : M Response :=
  '(test, product) ← get_object request pk;
  let result_status := data request !! "result_status" in
  let result_summary := data request !! "result_summary" in
  let result_data := default empty_dict (data request !! "result_data") in
  if negb (truthy result_status) then
    mret (error_response "VALIDATION_ERROR" "result_status is required"
            HTTP_400_BAD_REQUEST)
  else
    let test := Test.set_status "completed" test in
    let test := Test.set_result_status result_status test in
    let test := Test.set_result_summary result_summary test in
    let test := Test.set_result_data result_data test in
    now ← timezone_now;
    let test := Test.set_completed_at (Some now) test in
    test ← Test_save test;
    TestHistory_objects_create test
      (Supplier.username (user request))
      "test_completed"
      (Some (Test.status test))
      (Some "completed")
      (Some ("Test completed with " +:+ format_opt result_status +:+ " result"));;
    supplier ← Product_supplier product;
    sent_at ← timezone_now;
    Notification_objects_create
      (Supplier.supplier_id supplier)
      "supplier"
      "test_completed"
      ("Test Completed: " +:+ Test.test_name test)
      ("Your product " +:+ quote +:+ Product.name product +:+ quote
         +:+ " has completed " +:+ Test.test_name test +:+ " with "
         +:+ format_opt result_status +:+ " result.")
      "sent"
      (Some sent_at);;
    mret {| body := TestBody test; status_code := HTTP_200_OK |}.

(** The inherited [destroy]: [get_object], [instance.delete()], and an
    empty 204. *)
Definition destroy (request : Request) (pk : UUID) : M Response :=
  '(test, _) ← get_object request pk;
  Test_delete test;;
  mret {| body := NoBody; status_code := HTTP_204_NO_CONTENT |}.

End TestViewSet.

(** ** serializers.py: ReportSerializer *)

Module ReportSerializer.

(** The writable fields of [Meta.fields]. *)
Record validated_data := {
  product : option UUID;
  report_type : option string;
  report_format : option string;
  expires_at : option (option Time);
  metadata : option JSON
}.

(** [serializer.save(status=...)]: [Report.objects.create] on the
    validated data extended with the keyword argument. *)
Definition save (vd : validated_data) (status : string) : M Report.t :=
  report_id ← uuid4;
  created_at ← timezone_now;
  w ← get_world;
  match product vd with
  | None => raise IntegrityError
  | Some product_id =>
      let r := Report.mk report_id product_id
                 (default EmptyString (report_type vd))
                 (default "PDF" (report_format vd))
                 None None None
                 status
                 None
                 (default None (expires_at vd))
                 None None
                 (default empty_dict (metadata vd))
                 created_at in
      match products w !! product_id, reports w !! report_id with
      | Some _, None =>
          modify (fun w => set_reports (<[report_id := r]> (reports w)) w);;
          mret r
      | _, _ => raise IntegrityError
      end
  end.

Definition get_download_url (obj : Report.t) : option string :=
  if String.eqb (Report.status obj) "completed" && truthy (Report.report_url obj)
  then Report.report_url obj
  else None.

End ReportSerializer.

(** ** views.py: ReportViewSet *)

Module ReportViewSet.

Definition get_queryset (request : Request) (w : World)
    : gmap UUID (Report.t * Product.t) :=
  let queryset :=
    omap (fun r => p ← products w !! Report.product r; Some (r, p)) (reports w) in
  let product_id := q_product_id (query_params request) in
  let queryset :=
    match product_id with
    | Some product_id => filter (fun kv => Report.product kv.2.1 = product_id) queryset
    | None => queryset
    end in
  let report_status := q_status (query_params request) in
  let queryset :=
    if truthy report_status
    then filter (fun kv => Some (Report.status kv.2.1) = report_status) queryset
    else queryset in
  queryset.

Definition get_object (request : Request) (pk : UUID) : M (Report.t * Product.t) :=
  w ← get_world;
  get_object_or_404 (get_queryset request w) pk.

(** The closure handed to the timer, applied to the [report] object it
    captured. *)
Definition complete_report (report : Report.t) : M Report.t :=
  let report := Report.set_status "completed" report in
  now ← timezone_now;
  let report := Report.set_generated_at (Some now) report in
  now ← timezone_now;
  let report := Report.set_expires_at (Some (now + timedelta 30)) report in
  let report :=
    Report.set_report_url
      (Some ("/api/v1/reports/" +:+ str_uuid (Report.report_id report) +:+ "/download"))
      report in
  Report_save report.

(** Returns [serializer.instance] as [serializer.save()] leaves it;
    [Timer(5.0, complete_report).start()] leaves a started timer
    behind. *)
Definition perform_create (vd : ReportSerializer.validated_data) : M Report.t :=
  report ← ReportSerializer.save vd "generating";
  modify (fun w =>
    set_timers (timers w ++ [{| interval := seconds 5; captured_report := report |}]) w);;
  mret report.

Definition status_check (request : Request) (pk : UUID) : M Response :=
  '(report, _) ← get_object request pk;
  let download_url :=
    if String.eqb (Report.status report) "completed"
    then Some ("/api/v1/reports/" +:+ str_uuid (Report.report_id report) +:+ "/download")
    else ReportSerializer.get_download_url report in
  mret {| body := ReportBody report download_url; status_code := HTTP_200_OK |}.

Definition download (request : Request) (pk : UUID) : M Response :=
  '(report, _) ← get_object request pk;
  if str_ne (Report.status report) "completed" then
    mret (error_response "NOT_READY" "Report is not ready for download"
            HTTP_400_BAD_REQUEST)
  else
    mret {| body := DownloadBody
                      (str_uuid (Report.report_id report))
                      ("https://reports-bucket.s3.amazonaws.com/"
                         +:+ format_opt (Report.s3_key report))
                      "3600 seconds"
                      "Use this URL to download the report";
            status_code := HTTP_200_OK |}.

End ReportViewSet.

(** The [i]-th started timer goes off: its thread calls the closure and
    ends; an exception raised by the closure ends the thread with it,
    and what was written before stays. *)
Definition Timer_run (i : nat) (w : World) : World :=
  match timers w !! i with
  | None => w
  | Some t =>
      (ReportViewSet.complete_report (captured_report t)
         (set_timers (delete i (timers w)) w)).2
  end.

(** ** Reading outcomes *)

(** The view answered with a 200. *)
Definition succeeded (r : Result Response) : Prop :=
  exists resp, r = Return resp /\ status_code resp = HTTP_200_OK.

(** The view answered with an error body carrying [code]. *)
Definition failed_with (code : string) (r : Result Response) : Prop :=
  exists message, r = Return (error_response code message HTTP_400_BAD_REQUEST).

Definition InvalidStateError := failed_with "INVALID_STATE".
Definition ValidationError := failed_with "VALIDATION_ERROR".
Definition NotReadyError := failed_with "NOT_READY".

(** The caller was refused for lack of rights over the entity. *)
Definition PermissionError (r : Result Response) : Prop := r = Raise PermissionDenied.

(** [test.history], oldest first. *)
Definition history_of (test_id : UUID) (w : World) : list TestHistory.t :=
  filter (fun h => TestHistory.test h = test_id) (test_history w).

(** Each record starts from the status the previous one ended in;
    [previous] is what the first record must start from. *)
Fixpoint linked (previous : option string) (hs : list TestHistory.t) : bool :=
  match hs with
  | [] => true
  | h :: hs =>
      bool_decide (TestHistory.old_status h = previous)
      && linked (TestHistory.new_status h) hs
  end.

(** The status the records say the test is in now. *)
Definition replay (hs : list TestHistory.t) : option string :=
  h ← last hs; TestHistory.new_status h.

(** The records of a test tell its whole story: they start from no
    status, follow on from one another, and end in the status the test
    has. *)
Definition trail_complete (test_id : UUID) (w : World) : bool :=
  linked None (history_of test_id w)
  && bool_decide (replay (history_of test_id w) = Test.status <$> tests w !! test_id).

(** The status a further record has to start from: where the last
    record ended, or [previous] if there is none yet. *)
Definition last_status (previous : option string) (hs : list TestHistory.t)
    : option string :=
match last hs with
| Some h => TestHistory.new_status h
| None => previous
end.

(** A computation keeps the store's constraints, however it ends. *)
Definition preserves {A} (m : M A) : Prop :=
forall w, consistent w -> consistent (m w).2.

(** ** A small concrete world *)

Module Sample.

Definition alice : Supplier.t :=
  Supplier.mk 1 "alice" "alice@example.com" false "active".

Definition bob : Supplier.t :=
  Supplier.mk 2 "bob" "bob@example.com" false "active".

Definition root : Supplier.t :=
  Supplier.mk 3 "root" "root@example.com" true "active".

(** Alice's product. *)
Definition widget (submission_status : string) : Product.t :=
  Product.mk 10 1 "Widget" None "tools" None submission_status None None None
    empty_dict 100 100 1.

(** A test of Alice's product. *)
Definition safety (status : string) : Test.t :=
  Test.mk 20 10 "Safety" "Drop test" status "medium" None None None None
    None None None empty_dict None 200 200.

Definition created : TestHistory.t :=
  TestHistory.mk 30 20 "root" "test_created" None (Some "pending") None 200 empty_dict.

Definition summary (status : string) : Report.t :=
  Report.mk 40 10 "summary" "PDF" None None None status None None None None
    empty_dict 300.

(** Successive clock readings are one millisecond apart. *)
Definition world (submission_status test_status report_status : string) : World :=
  {| suppliers := {[ 1%N := alice; 2%N := bob; 3%N := root ]};
     products := {[ 10%N := widget submission_status ]};
     tests := {[ 20%N := safety test_status ]};
     test_history := [created];
     reports := {[ 40%N := summary report_status ]};
     notifications := [];
     timers := [];
     clock := fun n => 1000000 + 1000 * Z.of_nat n;
     clock_reads := 0;
     uuid_source := fun n => (1000 + N.of_nat n)%N;
     uuid_draws := 0 |}.

Definition no_params : QueryParams :=
  {| q_product_id := None; q_status := None; q_type := None; q_category := None;
     q_search := None |}.

Definition request (user : Supplier.t) (data : gmap string string) : Request :=
  {| user := user; query_params := no_params; data := data |}.

Definition passed : gmap string string :=
  {[ "result_status" := "pass"; "result_summary" := "ok" ]}.

Definition new_status (s : string) : TestSerializer.validated_data :=
  TestSerializer.Build_validated_data None None None (Some s) None None None None
    None None None None None None.

Definition new_test : TestSerializer.validated_data :=
  TestSerializer.Build_validated_data (Some 10%N) (Some "Quality") (Some "Wear test")
    None None None None None None None None None None None.

Definition new_report : ReportSerializer.validated_data :=
  ReportSerializer.Build_validated_data (Some 10%N) (Some "final") None None None.

End Sample.

(** ** views.py: the remaining views *)

(** [serializers.py: ProductCreateSerializer] *)
Module ProductCreateSerializer.

(** The writable fields of [Meta.fields]. *)
Record validated_data := {
  name : option string;
  description : option (option string);
  category : option string;
  sku : option (option string);
  metadata : option JSON
}.

(** [sku] is [unique=True]: a text value may be stored once; [NULL]
    any number of times. *)
Definition sku_taken (v : option string) (w : World) : bool :=
  match v with
  | None => false
  | Some _ => bool_decide (map_Exists (fun _ q => Product.sku q = v) (products w))
  end.

(** [serializer.save(supplier=...)]: [Product.objects.create] on the
    validated data extended with the keyword argument.  Absent keys take
    the column defaults; [auto_now_add] and [auto_now] each read the
    clock; the store refuses a dangling supplier, a key already taken
    and a [sku] already taken. *)
Definition save (vd : validated_data) (supplier : Supplier.t) : M Product.t :=
  product_id ← uuid4;
  created_at ← timezone_now;
  updated_at ← timezone_now;
  w ← get_world;
  let p := Product.mk product_id (Supplier.supplier_id supplier)
             (default EmptyString (name vd))
             (default None (description vd))
             (default EmptyString (category vd))
             (default None (sku vd))
             "draft" None None None
             (default empty_dict (metadata vd))
             created_at updated_at 1 in
  match suppliers w !! Supplier.supplier_id supplier, products w !! product_id with
  | Some _, None =>
      if sku_taken (Product.sku p) w then raise IntegrityError
      else
        modify (fun w => set_products (<[product_id := p]> (products w)) w);;
        mret p
  | _, _ => raise IntegrityError
  end.

End ProductCreateSerializer.

(** [ProductViewSet.perform_create]; returns [serializer.instance] as
    [serializer.save()] leaves it. *)
Definition ProductViewSet_perform_create (request : Request)
    (vd : ProductCreateSerializer.validated_data) : M Product.t :=
  ProductCreateSerializer.save vd (user request).

Module SupplierViewSet.

Definition get_queryset (request : Request) (w : World) : gmap UUID Supplier.t :=
  if Supplier.is_staff (user request) then suppliers w
  else filter (fun kv => Supplier.supplier_id kv.2
                         = Supplier.supplier_id (user request)) (suppliers w).

End SupplierViewSet.

Definition Notification_set_status (v : string) (n : Notification.t) : Notification.t :=
  Notification.mk (Notification.notification_id n) (Notification.recipient_id n)
    (Notification.recipient_type n) (Notification.notification_type n)
    (Notification.subject n) (Notification.message n) v (Notification.sent_at n)
    (Notification.read_at n) (Notification.created_at n) (Notification.metadata n).

Definition Notification_set_read_at (v : option Time) (n : Notification.t)
    : Notification.t :=
  Notification.mk (Notification.notification_id n) (Notification.recipient_id n)
    (Notification.recipient_type n) (Notification.notification_type n)
    (Notification.subject n) (Notification.message n) (Notification.status n)
    (Notification.sent_at n) v (Notification.created_at n) (Notification.metadata n).

Definition Notification_set_created_at (v : Time) (n : Notification.t)
    : Notification.t :=
  Notification.mk (Notification.notification_id n) (Notification.recipient_id n)
    (Notification.recipient_type n) (Notification.notification_type n)
    (Notification.subject n) (Notification.message n) (Notification.status n)
    (Notification.sent_at n) (Notification.read_at n) v (Notification.metadata n).

(** The rows of [rows] keyed [notification_id n], rewritten to [n]. *)
Definition rewrite_notification (n : Notification.t) (rows : list Notification.t)
    : list Notification.t :=
  (fun row => if bool_decide (Notification.notification_id row
                              = Notification.notification_id n)
              then n else row) <$> rows.

(** [notification.save()] on a loaded instance: an [UPDATE] of the row
    with its key ([Notification] has no [auto_now] field) and, when there
    is no such row, an [INSERT], for which [auto_now_add] stamps
    [created_at] anew. *)
Definition Notification_save (n : Notification.t) : M Notification.t :=
  w ← get_world;
  if bool_decide (Exists (fun row => Notification.notification_id row
                                     = Notification.notification_id n)
                    (notifications w))
  then
    modify (fun w =>
      set_notifications (rewrite_notification n (notifications w)) w);;
    mret n
  else
    created_at ← timezone_now;
    let n := Notification_set_created_at created_at n in
    modify (fun w => set_notifications (notifications w ++ [n]) w);;
    mret n.

(** [Meta.ordering = ['-created_at']]: a row goes in front of the rows
    that are not newer than it. *)
Fixpoint insert_newest_first (n : Notification.t) (rows : list Notification.t)
    : list Notification.t :=
  match rows with
  | [] => [n]
  | row :: rest =>
      if Notification.created_at n <? Notification.created_at row
      then row :: insert_newest_first n rest
      else n :: row :: rest
  end.

(** The rows newest first.  Rows created at the same instant stay in
    table order here; the database leaves their order open. *)
Definition newest_first (rows : list Notification.t) : list Notification.t :=
  foldr insert_newest_first [] rows.

Module NotificationViewSet.

(** The caller's own notifications, as a supplier, in the model's
    default order. *)
Definition get_queryset (request : Request) (w : World) : list Notification.t :=
  newest_first
    (filter (fun n => Notification.recipient_id n = Supplier.supplier_id (user request)
                      /\ Notification.recipient_type n = "supplier")
       (notifications w)).

(** [queryset.get(pk=pk)]; primary keys are unique, so the first match
    is the match. *)
Definition get_object (request : Request) (pk : UUID) : M Notification.t :=
  w ← get_world;
  match head (filter (fun n => Notification.notification_id n = pk)
                (get_queryset request w)) with
  | Some n => mret n
  | None => raise Http404
  end.

(** The returned instance stands for [Response(serializer.data)]. *)
Definition mark_read (request : Request) (pk : UUID) : M Notification.t :=
  notification ← get_object request pk;
  let notification := Notification_set_status "read" notification in
  now ← timezone_now;
  let notification := Notification_set_read_at (Some now) notification in
  Notification_save notification.

End NotificationViewSet.

(** ** models.py: the counting properties of [Product] *)

(** [self.tests.count()] *)
Definition Product_tests_count (p : Product.t) (w : World) : nat :=
  size (filter (fun kv => Test.product kv.2 = Product.product_id p) (tests w)).

(** [self.tests.filter(status='completed').count()] *)
Definition Product_tests_completed (p : Product.t) (w : World) : nat :=
  size (filter (fun kv => Test.status kv.2 = "completed")
          (filter (fun kv => Test.product kv.2 = Product.product_id p) (tests w))).

(** ** admin.py: the bulk actions of [TestAdmin] *)

Module TestAdmin.

(** [queryset.update(status=...)]: one [UPDATE] over the rows the
    queryset selects.  No instance is loaded or saved, so nothing else is
    written; the result is the number of rows matched. *)
Definition queryset_update_status (queryset : Test.t -> bool) (status : string)
    : M nat :=
  w ← get_world;
  modify (fun w =>
    set_tests ((fun x => if queryset x then Test.set_status status x else x)
               <$> tests w) w);;
  mret (size (filter (fun kv => queryset kv.2 = true) (tests w))).

(** The returned text is the one handed to [message_user]. *)
Definition mark_as_completed (queryset : Test.t -> bool) : M string :=
  updated ← queryset_update_status queryset "completed";
  mret (pretty updated +:+ " tests marked as completed.").

Definition mark_as_in_progress (queryset : Test.t -> bool) : M string :=
  updated ← queryset_update_status queryset "in_progress";
  mret (pretty updated +:+ " tests marked as in progress.").

End TestAdmin.

(** ** views.py: ProductFileViewSet.perform_create *)

(** The upload in [request.FILES]: its name, its size and its bytes. *)
Record UploadedFile := {
  file_name : string;
  file_size : Z;
  file_content : string
}.

(** [name.split('.')]: the pieces between the dots, never an empty list. *)
Fixpoint split_dot (s : string) : list string :=
  match s with
  | EmptyString => [EmptyString]
  | String c s' =>
      if Ascii.eqb c "."%char then EmptyString :: split_dot s'
      else match split_dot s' with
           | piece :: pieces => String c piece :: pieces
           | [] => [String c EmptyString]
           end
  end.

(** ['.'.join(pieces)] *)
Fixpoint join_dot (pieces : list string) : string :=
  match pieces with
  | [] => EmptyString
  | [piece] => piece
  | piece :: pieces => piece +:+ "." +:+ join_dot pieces
  end.

(** [name.split('.')[-1]] *)
Definition last_piece (s : string) : string :=
  default EmptyString (last (split_dot s)).

(** ['.' in s] *)
Fixpoint has_dot (s : string) : bool :=
  match s with
  | EmptyString => false
  | String c s' => Ascii.eqb c "."%char || has_dot s'
  end.

(** The keyword arguments handed to [serializer.save]. *)
Record ProductFileFields := {
  pf_product : Product.t;
  pf_file_name : string;
  pf_file_type : string;
  pf_file_size : Z;
  pf_file_hash : string;
  pf_upload_status : string;
  pf_validated_at : Time
}.

Section ProductFileViewSet.

(** The library calls are taken as given: [hashlib.sha256(...).hexdigest()],
    [str.upper], and the serializer's [save], which stores the upload and
    inserts the row. *)
Variable sha256_hexdigest : string -> string.
Variable upper : string -> string.
Variable serializer_save : ProductFileFields -> M unit.

(** [get_object_or_404(Product, product_id=product_id)] *)
Definition get_product_or_404 (product_id : UUID) : M Product.t :=
  w ← get_world;
  get_object_or_404 (products w) product_id.

Definition ProductFileViewSet_perform_create (request : Request) (product_pk : UUID)
    (file_obj : UploadedFile) : M unit :=
  product ← get_product_or_404 product_pk;
  supplier ← Product_supplier product;
  if negb (bool_decide (Supplier.supplier_id supplier
                        = Supplier.supplier_id (user request)))
     && negb (Supplier.is_staff (user request))
  then raise PermissionDenied
  else
    let file_hash := sha256_hexdigest (file_content file_obj) in
    let file_extension := upper (last_piece (file_name file_obj)) in
    validated_at ← timezone_now;
    serializer_save
      {| pf_product := product;
         pf_file_name := file_name file_obj;
         pf_file_type := file_extension;
         pf_file_size := file_size file_obj;
         pf_file_hash := file_hash;
         pf_upload_status := "validated";
         pf_validated_at := validated_at |}.

End ProductFileViewSet.

(** ** More sample data *)

Module Fixture.

Definition gadget : ProductCreateSerializer.validated_data :=
  {| ProductCreateSerializer.name := Some "Gadget";
     ProductCreateSerializer.description := None;
     ProductCreateSerializer.category := Some "tools";
     ProductCreateSerializer.sku := Some (Some "G-1");
     ProductCreateSerializer.metadata := None |}.

(** A notification sent to Alice. *)
Definition notice : Notification.t :=
  Notification.mk 50 1 "supplier" "product_submitted" "Product Submitted"
    "Your product has been submitted for testing." "sent" (Some 400) None 400
    empty_dict.

Definition inbox (w : World) : World := set_notifications [notice] w.

(** The sample test, rescheduled through the update path: its second
    record goes from 'pending' to 'scheduled'. *)
Definition rescheduled : TestHistory.t :=
  TestHistory.mk 31 20 "root" "status_update" (Some "pending") (Some "scheduled")
    None 250 empty_dict.

Definition scheduled_world : World :=
  set_test_history [Sample.created; rescheduled]
    (Sample.world "submitted" "scheduled" "generating").

(** A second test of Alice's product, with its own first record. *)
Definition wear : Test.t :=
  Test.mk 21 10 "Quality" "Wear test" "pending" "medium" None None None None
    None None None empty_dict None 210 210.

Definition wear_created : TestHistory.t :=
  TestHistory.mk 32 21 "root" "test_created" None (Some "pending") None 210 empty_dict.

Definition two_tests (test_status : string) : World :=
  set_test_history [Sample.created; wear_created]
    (set_tests {[ 20%N := Sample.safety test_status; 21%N := wear ]}
       (Sample.world "submitted" test_status "generating")).

(** A request that carries [?search=...]. *)
Definition searching (user : Supplier.t) (search : string) : Request :=
  {| user := user;
     query_params :=
       {| q_product_id := None; q_status := None; q_type := None;
          q_category := None; q_search := Some search |};
     data := ∅ |}.

End Fixture.

(** A computation only ever adds to the end of the history table. *)
Definition appends_history {A} (m : M A) : Prop :=
  forall w, test_history w `prefix_of` test_history (m w).2.

(** * Properties *)

(** ** Text comparisons *)

Lemma str_ne_true a b : str_ne a b = true <-> a <> b.
Proof. unfold str_ne. rewrite negb_true_iff. apply String.eqb_neq. Qed.

Lemma str_ne_false a b : str_ne a b = false <-> a = b.
Proof. unfold str_ne. rewrite negb_false_iff. apply String.eqb_eq. Qed.

Lemma truthy_false v : truthy v = false <-> v = None \/ v = Some EmptyString.
Proof.
  destruct v as [s|]; simpl.
  - rewrite str_ne_false. split; [intros ->; by right | intros [?|?]; congruence].
  - split; [by left | done].
Qed.

Lemma truthy_true v : truthy v = true <-> exists s, v = Some s /\ s <> EmptyString.
Proof.
  destruct v as [s|]; simpl.
  - rewrite str_ne_true. split; [eauto | intros (? & [= <-] & ?); done].
  - split; [done | intros (? & ? & ?); done].
Qed.

(** ** What a queryset row tells about the tables *)

Ltac unfilter H :=
  repeat match type of H with
  | (if ?c then _ else _) !! _ = Some _ => destruct c
  | (match ?c with Some _ => _ | None => _ end) !! _ = Some _ => destruct c
  | filter _ _ !! _ = Some _ => apply map_lookup_filter_Some in H as [H ?]
  end.

Lemma product_in_queryset request w pk p s :
  ProductViewSet.get_queryset request w !! pk = Some (p, s) ->
  products w !! pk = Some p /\ suppliers w !! Product.supplier p = Some s.
Proof.
  unfold ProductViewSet.get_queryset. cbv zeta. intros H. unfilter H.
  all: apply lookup_omap_Some in H as (p' & Hj & Hp).
  all: destruct (suppliers w !! Product.supplier p') as [s'|] eqn:Hs; simplify_eq/=; done.
Qed.

Lemma test_in_queryset request w pk x p :
  TestViewSet.get_queryset request w !! pk = Some (x, p) ->
  tests w !! pk = Some x /\ products w !! Test.product x = Some p.
Proof.
  unfold TestViewSet.get_queryset. cbv zeta. intros H. unfilter H.
  all: apply lookup_omap_Some in H as (x' & Hj & Hx).
  all: destruct (products w !! Test.product x') as [p'|] eqn:Hp; simplify_eq/=; done.
Qed.

Lemma report_in_queryset request w pk r p :
  ReportViewSet.get_queryset request w !! pk = Some (r, p) ->
  reports w !! pk = Some r /\ products w !! Report.product r = Some p.
Proof.
  unfold ReportViewSet.get_queryset. cbv zeta. intros H. unfilter H.
  all: apply lookup_omap_Some in H as (r' & Hj & Hr).
  all: destruct (products w !! Report.product r') as [p'|] eqn:Hp; simplify_eq/=; done.
Qed.

(** A row of the filtered queryset is a row of the queryset whose
    search fields hold every search term. *)
Lemma product_filtered_row request queryset pk p s :
  ProductViewSet.filter_queryset request queryset !! pk = Some (p, s) <->
  queryset !! pk = Some (p, s) /\
  SearchFilter.matches (SearchFilter.get_search_terms request)
    (ProductViewSet.search_fields p) = true.
Proof.
  unfold ProductViewSet.filter_queryset. cbv zeta.
  destruct (SearchFilter.get_search_terms request) as [|term terms].
  - split; [intros Hq; split; [exact Hq | reflexivity] | by intros [Hq _]].
  - rewrite map_lookup_filter_Some. reflexivity.
Qed.

Lemma product_filtered_None request queryset pk :
  queryset !! pk = None ->
  ProductViewSet.filter_queryset request queryset !! pk = None.
Proof.
  intros Hq. unfold ProductViewSet.filter_queryset. cbv zeta.
  destruct (SearchFilter.get_search_terms request); [exact Hq|].
  apply map_lookup_filter_None. by left.
Qed.

(** A request without a [search] parameter is not filtered. *)
Lemma no_search_no_filter request queryset :
  q_search (query_params request) = None ->
  ProductViewSet.filter_queryset request queryset = queryset.
Proof.
  intros Hno. unfold ProductViewSet.filter_queryset, SearchFilter.get_search_terms.
  by rewrite Hno.
Qed.

(** A caller who is not staff only ever sees their own products. *)
Lemma product_queryset_scoped request w pk p s :
  ProductViewSet.get_queryset request w !! pk = Some (p, s) ->
  Supplier.is_staff (user request) = false ->
  Product.supplier p = Supplier.supplier_id (user request).
Proof.
  unfold ProductViewSet.get_queryset. cbv zeta. intros H Hstaff.
  rewrite Hstaff in H. simpl in H. unfilter H.
  all: simpl in *; by apply lookup_omap_Some in H as (? & ? & ?).
Qed.

Lemma lookup_filter_if {A} (c : bool) (P : UUID * A -> Prop)
    `{!forall x, Decision (P x)} (m : gmap UUID A) k v :
  (if c then filter P m else m) !! k = Some v <->
  m !! k = Some v /\ (c = true -> P (k, v)).
Proof.
  destruct c; rewrite ?map_lookup_filter_Some.
  - split; intros [Hm HP]; auto.
  - split; [intros Hm; split; [exact Hm | discriminate] | by intros [Hm _]].
Qed.

Lemma lookup_filter_match {A B} (c : option B) (P : B -> UUID * A -> Prop)
    `{!forall b x, Decision (P b x)} (m : gmap UUID A) k v :
  match c with Some b => filter (P b) m | None => m end !! k = Some v <->
  m !! k = Some v /\ (forall b, c = Some b -> P b (k, v)).
Proof.
  destruct c as [b|]; rewrite ?map_lookup_filter_Some.
  - split; intros [Hm HP]; split; try exact Hm; [by intros ? [= <-] | by apply HP].
  - split; [intros Hm; split; [exact Hm | discriminate] | by intros [Hm _]].
Qed.

(** The test queryset, row by row: the stored test joined with its
    product, if it passes the filters of the query string. *)
Lemma test_queryset_lookup request w pk x p :
  TestViewSet.get_queryset request w !! pk = Some (x, p) <->
  tests w !! pk = Some x /\ products w !! Test.product x = Some p /\
  (forall id, q_product_id (query_params request) = Some id -> Test.product x = id) /\
  (truthy (q_status (query_params request)) = true ->
   Some (Test.status x) = q_status (query_params request)) /\
  (truthy (q_type (query_params request)) = true ->
   Some (Test.test_type x) = q_type (query_params request)).
Proof.
  unfold TestViewSet.get_queryset. cbv zeta.
  rewrite !lookup_filter_if.
  rewrite (lookup_filter_match _ (fun b kv => Test.product kv.2.1 = b)).
  rewrite lookup_omap_Some. simpl. split.
  - intros [[[(x' & Hj & Hx) ?] ?] ?].
    destruct (products w !! Test.product x') as [p'|] eqn:Hp; simplify_eq/=; done.
  - intros (Hx & Hp & ? & ? & ?). repeat split; try done.
    exists x. by rewrite Hp.
Qed.

(** ** Running the store's operations *)

Lemma bind_run {A B} (m : M A) (f : A -> M B) w :
  (m ≫= f) w = match m w with
               | (Return a, w') => f a w'
               | (Raise e, w') => (Raise e, w')
               end.
Proof. reflexivity. Qed.

Lemma ret_run {A} (a : A) w : (mret a : M A) w = (Return a, w).
Proof. reflexivity. Qed.

Ltac run := repeat (first [rewrite bind_run | rewrite ret_run]; simpl).

Lemma Product_save_run p w :
  is_Some (suppliers w !! Product.supplier p) ->
  let p' := Product.set_updated_at (clock w (clock_reads w)) p in
  Product_save p w =
    (Return p', set_products (<[Product.product_id p := p']> (products w))
                  (set_clock_reads (S (clock_reads w)) w)).
Proof. intros [s Hs]. unfold Product_save. run. rewrite Hs. reflexivity. Qed.

Lemma Test_save_run x w :
  is_Some (products w !! Test.product x) ->
  let x' := Test.set_updated_at (clock w (clock_reads w)) x in
  Test_save x w =
    (Return x', set_tests (<[Test.test_id x := x']> (tests w))
                  (set_clock_reads (S (clock_reads w)) w)).
Proof. intros [p Hp]. unfold Test_save. run. rewrite Hp. reflexivity. Qed.

Lemma TestHistory_objects_create_run test by_ type_ old new descr w :
  is_Some (tests w !! Test.test_id test) ->
  let h := TestHistory.mk (uuid_source w (uuid_draws w)) (Test.test_id test)
             by_ type_ old new descr (clock w (clock_reads w)) empty_dict in
  TestHistory_objects_create test by_ type_ old new descr w =
    (Return h, set_test_history (test_history w ++ [h])
                 (set_clock_reads (S (clock_reads w))
                    (set_uuid_draws (S (uuid_draws w)) w))).
Proof.
  intros [x Hx]. unfold TestHistory_objects_create. run. rewrite Hx. reflexivity.
Qed.

(** What the store's constraints give for a row found by a view. *)
Lemma consistent_test w pk x :
  consistent w -> tests w !! pk = Some x -> Test.test_id x = pk.
Proof. intros [(_ & _ & Hk & _) _] Hx. exact (Hk _ _ Hx). Qed.

Lemma consistent_product w pk p :
  consistent w -> products w !! pk = Some p ->
  Product.product_id p = pk /\
  exists s, suppliers w !! Product.supplier p = Some s
            /\ Supplier.supplier_id s = Product.supplier p.
Proof.
  intros [(Hs & Hk & _) (Hf & _)] Hp. split; [exact (Hk _ _ Hp)|].
  destruct (Hf _ _ Hp) as [s Hsup]. exists s. split; [done|]. exact (Hs _ _ Hsup).
Qed.

Lemma Notification_objects_create_run to type_ kind subject message status sent w :
  let n := Notification.mk (uuid_source w (uuid_draws w)) to type_ kind subject
             message status sent None (clock w (clock_reads w)) empty_dict in
  Notification_objects_create to type_ kind subject message status sent w =
    (Return n, set_notifications (notifications w ++ [n])
                 (set_clock_reads (S (clock_reads w))
                    (set_uuid_draws (S (uuid_draws w)) w))).
Proof. reflexivity. Qed.

Lemma sample_world_consistent a b c : consistent (Sample.world a b c).
Proof.
  refine (bool_decide_unpack (consistent (Sample.world a b c)) _).
  vm_compute. exact I.
Defined.

(** ** Product submission *)

(** C3. For a product the call finds, that is a row of the caller's
    queryset that passes the search filter of the request, [submit]
    succeeds exactly when the product is a draft.  Otherwise it answers
    INVALID_STATE and writes nothing.  On success the stored product is
    'submitted', its [submission_date] is the clock reading taken by the
    call, and one notification of type 'product_submitted' for the owning
    supplier is appended. *)
Theorem submit_iff_draft request pk w p s :
  consistent w ->
  ProductViewSet.filter_queryset request (ProductViewSet.get_queryset request w) !! pk
    = Some (p, s) ->
  let r := (ProductViewSet.submit request pk w).1 in
  let w' := (ProductViewSet.submit request pk w).2 in
  (succeeded r <-> Product.submission_status p = "draft") /\
  (Product.submission_status p <> "draft" -> InvalidStateError r /\ w' = w) /\
  (Product.submission_status p = "draft" ->
   exists p' n,
     r = Return {| body := ProductBody p' "Product submitted successfully for testing";
                   status_code := HTTP_200_OK |} /\
     products w' !! pk = Some p' /\
     Product.submission_status p' = "submitted" /\
     Product.submission_date p' = Some (clock w (clock_reads w)) /\
     notifications w' = notifications w ++ [n] /\
     Notification.notification_type n = "product_submitted" /\
     Notification.recipient_type n = "supplier" /\
     Notification.recipient_id n = Product.supplier p).
Proof.
  intros Hw Hfound.
  pose proof (proj1 (product_filtered_row _ _ _ _ _) Hfound) as [Hq _].
  destruct (product_in_queryset _ _ _ _ _ Hq) as [Hp Hs].
  destruct (consistent_product _ _ _ Hw Hp) as (Hid & s' & Hs' & Hsid).
  assert (s' = s) as -> by congruence.
  unfold ProductViewSet.submit, ProductViewSet.get_object, get_object_or_404.
  run. rewrite Hfound. simpl.
  destruct (str_ne (Product.submission_status p) "draft") eqn:Hd.
  - apply str_ne_true in Hd. simpl. split; [|split].
    + split; [intros (resp & [= <-] & Hc); discriminate | done].
    + intros _. split; [eexists; reflexivity | reflexivity].
    + done.
  - apply str_ne_false in Hd. run.
    rewrite Product_save_run by (simpl; eauto). run.
    split; [|split].
    + split; [done | intros _; eexists; split; reflexivity].
    + done.
    + intros _. eexists _, _. split; [reflexivity|].
      rewrite Hid, lookup_insert_eq. repeat split; try reflexivity. exact Hsid.
Qed.

Lemma submit_iff_draft_witness :
  succeeded (ProductViewSet.submit (Fixture.searching Sample.alice "wid, TOOL") 10%N
               (Sample.world "draft" "scheduled" "generating")).1
  <-> Product.submission_status (Sample.widget "draft") = "draft".
Proof.
  apply (submit_iff_draft (Fixture.searching Sample.alice "wid, TOOL") 10%N
           (Sample.world "draft" "scheduled" "generating")
           (Sample.widget "draft") Sample.alice).
  - apply sample_world_consistent.
  - vm_compute. reflexivity.
Defined.

(** ** Starting a test *)

(** C4. For a test in the request's queryset, [start] succeeds exactly
    when the test is 'scheduled'.  Otherwise it answers INVALID_STATE and
    writes nothing.  On success the stored test is 'in_progress', its
    [started_at] is the clock reading taken by the call, and one history
    record 'test_started' from 'scheduled' to 'in_progress' is
    appended. *)
Theorem start_iff_scheduled request pk w x p :
  consistent w ->
  TestViewSet.get_queryset request w !! pk = Some (x, p) ->
  let r := (TestViewSet.start request pk w).1 in
  let w' := (TestViewSet.start request pk w).2 in
  (succeeded r <-> Test.status x = "scheduled") /\
  (Test.status x <> "scheduled" -> InvalidStateError r /\ w' = w) /\
  (Test.status x = "scheduled" ->
   exists x' h,
     r = Return {| body := TestBody x'; status_code := HTTP_200_OK |} /\
     tests w' !! pk = Some x' /\
     Test.status x' = "in_progress" /\
     Test.started_at x' = Some (clock w (clock_reads w)) /\
     test_history w' = test_history w ++ [h] /\
     TestHistory.test h = pk /\
     TestHistory.change_type h = "test_started" /\
     TestHistory.old_status h = Some "scheduled" /\
     TestHistory.new_status h = Some "in_progress").
Proof.
  intros Hw Hq.
  destruct (test_in_queryset _ _ _ _ _ Hq) as [Hx Hp].
  pose proof (consistent_test _ _ _ Hw Hx) as Hid.
  unfold TestViewSet.start, TestViewSet.get_object, get_object_or_404.
  run. rewrite Hq. simpl.
  destruct (str_ne (Test.status x) "scheduled") eqn:Hs.
  - apply str_ne_true in Hs. simpl. split; [|split].
    + split; [intros (resp & [= <-] & Hc); discriminate | done].
    + intros _. split; [eexists; reflexivity | reflexivity].
    + done.
  - apply str_ne_false in Hs. run.
    rewrite Test_save_run by (simpl; eauto). run.
    rewrite TestHistory_objects_create_run
      by (simpl; rewrite lookup_insert_eq; eauto).
    simpl. split; [|split].
    + split; [done | intros _; eexists; split; reflexivity].
    + done.
    + intros _. eexists _, _. split; [reflexivity|].
      rewrite Hid, lookup_insert_eq. repeat split; reflexivity.
Qed.

Lemma start_iff_scheduled_witness :
  succeeded (TestViewSet.start (Sample.request Sample.alice ∅) 20%N
               (Sample.world "submitted" "scheduled" "generating")).1
  <-> Test.status (Sample.safety "scheduled") = "scheduled".
Proof.
  apply (start_iff_scheduled (Sample.request Sample.alice ∅) 20%N
           (Sample.world "submitted" "scheduled" "generating")
           (Sample.safety "scheduled") (Sample.widget "submitted")).
  - apply sample_world_consistent.
  - vm_compute. reflexivity.
Defined.

(** ** The generic update path *)

(** [Test_save] leaves the history table alone, whether it raises or not. *)
Lemma Test_save_history x w : test_history (Test_save x w).2 = test_history w.
Proof.
  unfold Test_save. run. destruct (products w !! Test.product x); reflexivity.
Qed.

(** C5. A write through [TestSerializer.update] appends a history record
    exactly when it carries a status different from the stored one; the
    one record appended is of type 'status_update' and holds the stored
    status as old and the written status as new. *)
Theorem update_records_status_change request pk vd w x p :
  consistent w ->
  TestViewSet.get_queryset request w !! pk = Some (x, p) ->
  let w' := (TestViewSet.update request pk vd w).2 in
  (forall s, TestSerializer.status vd = Some s -> s <> Test.status x ->
     exists h,
       test_history w' = test_history w ++ [h] /\
       TestHistory.test h = pk /\
       TestHistory.change_type h = "status_update" /\
       TestHistory.old_status h = Some (Test.status x) /\
       TestHistory.new_status h = Some s) /\
  (TestSerializer.status vd = None \/ TestSerializer.status vd = Some (Test.status x) ->
     test_history w' = test_history w).
Proof.
  intros Hw Hq.
  destruct (test_in_queryset _ _ _ _ _ Hq) as [Hx Hp].
  pose proof (consistent_test _ _ _ Hw Hx) as Hid.
  unfold TestViewSet.update, TestViewSet.get_object, get_object_or_404.
  run. rewrite Hq. simpl. rewrite bind_run.
  unfold TestSerializer.update, TestSerializer.super_update,
    TestSerializer.status_changes.
  split.
  - intros s Hs Hne. rewrite Hs. apply str_ne_true in Hne. rewrite Hne. run.
    rewrite TestHistory_objects_create_run by (rewrite Hid; eauto). run.
    match goal with
    | |- context [Test_save ?y ?v] =>
        pose proof (Test_save_history y v) as Hh; destruct (Test_save y v) as [[?|?] ?]
    end; simpl in *; rewrite Hh; eexists; (split; [reflexivity|]);
      repeat split; try reflexivity; exact Hid.
  - intros Hsame.
    assert (match TestSerializer.status vd with
            | Some s => str_ne s (Test.status x)
            | None => false
            end = false) as ->.
    { destruct Hsame as [-> | ->]; [done | by apply str_ne_false]. }
    run.
    match goal with
    | |- context [Test_save ?y ?v] =>
        pose proof (Test_save_history y v) as Hh; destruct (Test_save y v) as [[?|?] ?]
    end; simpl in *; exact Hh.
Qed.

Lemma update_records_status_change_witness :
  exists h,
    test_history (TestViewSet.update (Sample.request Sample.root ∅) 20%N
                    (Sample.new_status "scheduled")
                    (Sample.world "submitted" "pending" "generating")).2
    = [Sample.created; h] /\
    TestHistory.old_status h = Some "pending" /\
    TestHistory.new_status h = Some "scheduled".
Proof.
  destruct (update_records_status_change (Sample.request Sample.root ∅) 20%N
              (Sample.new_status "scheduled")
              (Sample.world "submitted" "pending" "generating")
              (Sample.safety "pending") (Sample.widget "submitted"))
    as [Hchange _].
  - apply sample_world_consistent.
  - vm_compute. reflexivity.
  - destruct (Hchange "scheduled") as (h & Hh & _ & _ & Hold & Hnew).
    + reflexivity.
    + vm_compute. discriminate.
    + exists h. split; [exact Hh | split; assumption].
Defined.

(** ** Downloading a report *)

Lemma length_append s1 s2 :
  String.length (s1 +:+ s2) = (String.length s1 + String.length s2)%nat.
Proof. induction s1 as [|c s1 IH]; simpl; [reflexivity | by rewrite IH]. Qed.

Lemma hex_length k n : String.length (hex k n) = k.
Proof.
  revert n. induction k as [|k IH]; intros n; simpl; [reflexivity|].
  rewrite length_append, IH. simpl. lia.
Qed.

Lemma str_uuid_length u : String.length (str_uuid u) = 36%nat.
Proof. unfold str_uuid. rewrite !length_append, !hex_length. reflexivity. Qed.

Lemma str_uuid_nonempty u : str_uuid u <> EmptyString.
Proof. intros H. pose proof (str_uuid_length u) as Hl. rewrite H in Hl. discriminate. Qed.

(** C7. For a report in the request's queryset, [download] answers
    NOT_READY exactly when the report is not 'completed'; for a completed
    report it answers 200 with a descriptor none of whose four entries is
    empty.  Either way nothing is written. *)
Theorem download_iff_completed request pk w r p :
  ReportViewSet.get_queryset request w !! pk = Some (r, p) ->
  let res := (ReportViewSet.download request pk w).1 in
  (NotReadyError res <-> Report.status r <> "completed") /\
  (Report.status r = "completed" ->
   exists report_id download_url expires_in message,
     res = Return {| body := DownloadBody report_id download_url expires_in message;
                     status_code := HTTP_200_OK |} /\
     report_id <> EmptyString /\ download_url <> EmptyString /\
     expires_in <> EmptyString /\ message <> EmptyString) /\
  (ReportViewSet.download request pk w).2 = w.
Proof.
  intros Hq.
  unfold ReportViewSet.download, ReportViewSet.get_object, get_object_or_404.
  run. rewrite Hq. simpl.
  destruct (str_ne (Report.status r) "completed") eqn:Hs; simpl.
  - apply str_ne_true in Hs. split; [|split]; [|done|reflexivity].
    split; [done | intros _; eexists; reflexivity].
  - apply str_ne_false in Hs. split; [|split]; [| |reflexivity].
    + split; [intros (msg & [=]) | done].
    + intros _. eexists _, _, _, _. split; [reflexivity|].
      split; [apply str_uuid_nonempty | done].
Qed.

Lemma download_iff_completed_witness :
  NotReadyError (ReportViewSet.download (Sample.request Sample.alice ∅) 40%N
                   (Sample.world "submitted" "completed" "generating")).1
  <-> Report.status (Sample.summary "generating") <> "completed".
Proof.
  apply (download_iff_completed (Sample.request Sample.alice ∅) 40%N
           (Sample.world "submitted" "completed" "generating")
           (Sample.summary "generating") (Sample.widget "submitted")).
  vm_compute. reflexivity.
Defined.

(** ** Completing a test *)

(** Every way [complete] can end: walk the branches of the view and of
    the store operations it calls. *)
Ltac walk_complete :=
  unfold TestViewSet.complete, TestViewSet.get_object, get_object_or_404,
    Test_save, TestHistory_objects_create, Product_supplier,
    Notification_objects_create, raise;
  run;
  repeat (case_match; run).

(** C8. For a test in the request's queryset, [complete] answers
    VALIDATION_ERROR exactly when [result_status] is absent from the
    request data or empty, and then it leaves the whole world (tables,
    clock and key counters alike) as it found it. *)
Theorem complete_requires_result_status request pk w x p :
  TestViewSet.get_queryset request w !! pk = Some (x, p) ->
  let r := (TestViewSet.complete request pk w).1 in
  (ValidationError r <->
   data request !! "result_status" = None \/
   data request !! "result_status" = Some EmptyString) /\
  (ValidationError r -> (TestViewSet.complete request pk w).2 = w).
Proof.
  intros Hq. cbv zeta.
  assert (Hiff : ValidationError (TestViewSet.complete request pk w).1 <->
                 truthy (data request !! "result_status") = false).
  { split.
    - destruct (truthy (data request !! "result_status")) eqn:Ht; [|done].
      intros (msg & Hr). revert Hr. walk_complete; simpl; intros; simplify_eq.
      rewrite Ht in *. discriminate.
    - intros Ht. unfold TestViewSet.complete, TestViewSet.get_object, get_object_or_404.
      run. rewrite Hq. simpl. rewrite Ht. simpl. eexists. reflexivity. }
  split.
  - rewrite Hiff. apply truthy_false.
  - rewrite Hiff. intros Ht.
    unfold TestViewSet.complete, TestViewSet.get_object, get_object_or_404.
    run. rewrite Hq. simpl. rewrite Ht. reflexivity.
Qed.

Lemma complete_requires_result_status_witness :
  (TestViewSet.complete (Sample.request Sample.alice ∅) 20%N
     (Sample.world "submitted" "in_progress" "generating")).2
  = Sample.world "submitted" "in_progress" "generating".
Proof.
  apply (complete_requires_result_status (Sample.request Sample.alice ∅) 20%N
           (Sample.world "submitted" "in_progress" "generating")
           (Sample.safety "in_progress") (Sample.widget "submitted")).
  - vm_compute. reflexivity.
  - exists "result_status is required". vm_compute. reflexivity.
Defined.

(** The successful run of [complete], in full: the response, and the
    world it leaves. *)
Lemma complete_run request pk w x p s rs :
  TestViewSet.get_queryset request w !! pk = Some (x, p) ->
  Test.test_id x = pk ->
  suppliers w !! Product.supplier p = Some s ->
  data request !! "result_status" = Some rs -> rs <> EmptyString ->
  let now := clock w in
  let t := clock_reads w in
  let x' :=
    Test.mk pk (Test.product x) (Test.test_type x) (Test.test_name x) "completed"
      (Test.priority x) (Test.assigned_to x) (Test.scheduled_date x)
      (Test.started_at x) (Some (now t)) (data request !! "result_summary")
      (Some rs) (Test.result_file_url x)
      (default empty_dict (data request !! "result_data")) (Test.notes x)
      (Test.created_at x) (now (1 + t)%nat) in
  let h :=
    TestHistory.mk (uuid_source w (uuid_draws w)) pk
      (Supplier.username (user request)) "test_completed"
      (Some "completed") (Some "completed")
      (Some ("Test completed with " +:+ rs +:+ " result"))
      (now (2 + t)%nat) empty_dict in
  let n :=
    Notification.mk (uuid_source w (1 + uuid_draws w)%nat)
      (Supplier.supplier_id s) "supplier" "test_completed"
      ("Test Completed: " +:+ Test.test_name x)
      ("Your product " +:+ quote +:+ Product.name p +:+ quote
         +:+ " has completed " +:+ Test.test_name x +:+ " with " +:+ rs +:+ " result.")
      "sent" (Some (now (3 + t)%nat)) None (now (4 + t)%nat) empty_dict in
  TestViewSet.complete request pk w =
    (Return {| body := TestBody x'; status_code := HTTP_200_OK |},
     Build_World (suppliers w) (products w) (<[pk := x']> (tests w))
       (test_history w ++ [h]) (reports w) (notifications w ++ [n]) (timers w)
       (clock w) (5 + t)%nat (uuid_source w) (2 + uuid_draws w)%nat).
Proof.
  intros Hq Hid Hs Hrs Hne. subst pk.
  destruct (test_in_queryset _ _ _ _ _ Hq) as [Hx Hp].
  assert (Ht : truthy (data request !! "result_status") = true).
  { apply truthy_true. eauto. }
  unfold TestViewSet.complete, TestViewSet.get_object, get_object_or_404.
  run. rewrite Hq. simpl. rewrite Ht. simpl. run.
  rewrite Test_save_run by (simpl; eauto). run.
  rewrite TestHistory_objects_create_run
    by (simpl; rewrite lookup_insert_eq; eauto).
  run. unfold Product_supplier. run. rewrite Hs. run.
  rewrite Hrs. reflexivity.
Qed.

(** C10. [complete] never answers INVALID_STATE.  Whatever status the
    test is in, a call with a non-empty [result_status] succeeds: the
    stored test becomes 'completed' with the result fields of the request
    and [completed_at] read from the clock, and one history record and one
    notification are appended.  A second call does all of it again: it
    overwrites [completed_at] and appends a further history record and a
    further notification. *)
Theorem complete_ignores_status request pk w :
  ~ InvalidStateError (TestViewSet.complete request pk w).1 /\
  forall x p rs,
    consistent w ->
    TestViewSet.get_queryset request w !! pk = Some (x, p) ->
    data request !! "result_status" = Some rs -> rs <> EmptyString ->
    exists x1 h1 n1 w1,
      TestViewSet.complete request pk w =
        (Return {| body := TestBody x1; status_code := HTTP_200_OK |}, w1) /\
      tests w1 !! pk = Some x1 /\
      Test.status x1 = "completed" /\
      Test.result_status x1 = Some rs /\
      Test.result_summary x1 = data request !! "result_summary" /\
      Test.result_data x1 = default empty_dict (data request !! "result_data") /\
      Test.completed_at x1 = Some (clock w (clock_reads w)) /\
      test_history w1 = test_history w ++ [h1] /\
      TestHistory.test h1 = pk /\
      TestHistory.change_type h1 = "test_completed" /\
      notifications w1 = notifications w ++ [n1] /\
      Notification.notification_type n1 = "test_completed" /\
      Notification.recipient_id n1 = Product.supplier p /\
      (truthy (q_status (query_params request)) = false ->
       exists x2 h2 n2 w2,
         TestViewSet.complete request pk w1 =
           (Return {| body := TestBody x2; status_code := HTTP_200_OK |}, w2) /\
         tests w2 !! pk = Some x2 /\
         Test.completed_at x2 = Some (clock w (5 + clock_reads w)%nat) /\
         test_history w2 = test_history w ++ [h1; h2] /\
         TestHistory.test h2 = pk /\
         notifications w2 = notifications w ++ [n1; n2] /\
         Notification.notification_type n2 = "test_completed").
Proof.
  split.
  { intros (msg & Hr). revert Hr. walk_complete; simpl; intros; simplify_eq. }
  intros x p rs Hw Hq Hrs Hne.
  destruct (proj1 (test_queryset_lookup _ _ _ _ _) Hq) as (Hx & Hp & Hfp & Hfs & Hft).
  pose proof (consistent_test _ _ _ Hw Hx) as Hid.
  destruct (consistent_product _ _ _ Hw Hp) as (_ & s & Hs & Hsid).
  pose proof (complete_run request pk w x p s rs Hq Hid Hs Hrs Hne) as Hrun.
  cbv zeta in Hrun.
  eexists _, _, _, _. split; [exact Hrun|]. simpl.
  rewrite lookup_insert_eq.
  do 12 (split; [first [reflexivity | exact Hsid]|]).
  intros Hnofilter.
  match type of Hrun with _ = (Return {| body := TestBody ?y |}, ?v) =>
    set (x1 := y) in *; set (w1 := v) in *
  end.
  assert (Hq1 : TestViewSet.get_queryset request w1 !! pk = Some (x1, p)).
  { apply test_queryset_lookup. subst w1 x1. simpl.
    rewrite lookup_insert_eq. repeat split; try done.
    intros Hyes. rewrite Hnofilter in Hyes. discriminate. }
  pose proof (complete_run request pk w1 x1 p s rs Hq1 eq_refl Hs Hrs Hne) as Hrun1.
  cbv zeta in Hrun1.
  eexists _, _, _, _. split; [exact Hrun1|]. subst w1 x1. simpl.
  rewrite lookup_insert_eq, <- !app_assoc. simpl.
  repeat split; reflexivity.
Qed.

Lemma complete_ignores_status_witness :
  succeeded (TestViewSet.complete (Sample.request Sample.root Sample.passed) 20%N
               (Sample.world "submitted" "completed" "generating")).1.
Proof.
  destruct (proj2 (complete_ignores_status
                     (Sample.request Sample.root Sample.passed) 20%N
                     (Sample.world "submitted" "completed" "generating"))
              (Sample.safety "completed") (Sample.widget "submitted") "pass")
    as (x1 & h1 & n1 & w1 & Hrun & _).
  - apply sample_world_consistent.
  - vm_compute. reflexivity.
  - vm_compute. reflexivity.
  - discriminate.
  - rewrite Hrun. eexists. split; reflexivity.
Defined.

(** ** The history record written by [complete] *)

(** X6. Whatever status the test was in, the record [complete] appends
    has 'completed' on both sides: [old_status] is read from the instance
    after its status was overwritten. *)
Lemma complete_history_record request pk w x p s rs :
  TestViewSet.get_queryset request w !! pk = Some (x, p) ->
  Test.test_id x = pk ->
  suppliers w !! Product.supplier p = Some s ->
  data request !! "result_status" = Some rs -> rs <> EmptyString ->
  exists h,
    test_history (TestViewSet.complete request pk w).2 = test_history w ++ [h] /\
    TestHistory.old_status h = Some "completed" /\
    TestHistory.new_status h = Some "completed".
Proof.
  intros Hq Hid Hs Hrs Hne.
  rewrite (complete_run request pk w x p s rs Hq Hid Hs Hrs Hne). simpl.
  eexists. repeat split; reflexivity.
Qed.

(** C1, at a test that is 'in_progress': the call succeeds and appends
    one record, and that record's [old_status] is 'completed', not the
    'in_progress' the test held when the call was made. *)
Theorem complete_old_status_in_progress :
  let w := Sample.world "submitted" "in_progress" "generating" in
  let run := TestViewSet.complete (Sample.request Sample.root Sample.passed) 20%N w in
  Test.status <$> tests w !! 20%N = Some "in_progress" /\
  succeeded run.1 /\
  exists h,
    test_history run.2 = test_history w ++ [h] /\
    TestHistory.old_status h = Some "completed" /\
    TestHistory.old_status h <> Some "in_progress".
Proof.
  cbv zeta. split; [vm_compute; reflexivity|]. split.
  - eexists. split; vm_compute; reflexivity.
  - eexists. split; [vm_compute; reflexivity|]. split; [reflexivity | discriminate].
Qed.

(** C2, at a test created 'pending' and then completed: after creation
    the records tell the test's story, after completion they do not: the
    second record starts from 'completed' where the first one ended in
    'pending'. *)
Theorem history_gap_after_complete :
  let w0 := Sample.world "submitted" "scheduled" "generating" in
  let w1 := (TestViewSet.perform_create (Sample.request Sample.root ∅)
               Sample.new_test w0).2 in
  let w2 := (TestViewSet.complete (Sample.request Sample.root Sample.passed)
               1000%N w1).2 in
  trail_complete 1000%N w1 = true /\
  (TestHistory.old_status <$> history_of 1000%N w2) = [None; Some "completed"] /\
  (TestHistory.new_status <$> history_of 1000%N w2) = [Some "pending"; Some "completed"] /\
  linked None (history_of 1000%N w2) = false /\
  trail_complete 1000%N w2 = false.
Proof. cbv zeta. repeat split; vm_compute; reflexivity. Qed.

(** ** Report generation *)

Lemma perform_create_run vd product_id w :
  ReportSerializer.product vd = Some product_id ->
  is_Some (products w !! product_id) ->
  reports w !! uuid_source w (uuid_draws w) = None ->
  let r := Report.mk (uuid_source w (uuid_draws w)) product_id
             (default EmptyString (ReportSerializer.report_type vd))
             (default "PDF" (ReportSerializer.report_format vd))
             None None None "generating" None
             (default None (ReportSerializer.expires_at vd)) None None
             (default empty_dict (ReportSerializer.metadata vd))
             (clock w (clock_reads w)) in
  ReportViewSet.perform_create vd w =
    (Return r,
     Build_World (suppliers w) (products w) (tests w) (test_history w)
       (<[Report.report_id r := r]> (reports w)) (notifications w)
       (timers w ++ [{| interval := seconds 5; captured_report := r |}])
       (clock w) (S (clock_reads w)) (uuid_source w) (S (uuid_draws w))).
Proof.
  intros Hvd [p Hp] Hfresh.
  unfold ReportViewSet.perform_create, ReportSerializer.save.
  run. rewrite Hvd. simpl. rewrite Hp, Hfresh. run. reflexivity.
Qed.

(** C6, as the code has it.  [perform_create] stores the report as
    'generating' and leaves one five-second timer holding it.  When that
    timer goes off (the report's product still being there) the stored
    report is 'completed', [generated_at] is the clock reading taken
    then, [expires_at] is the next clock reading plus thirty days, and
    [report_url] is the report's download path. *)
Theorem report_lifecycle vd product_id w :
  ReportSerializer.product vd = Some product_id ->
  is_Some (products w !! product_id) ->
  reports w !! uuid_source w (uuid_draws w) = None ->
  exists r w1,
    ReportViewSet.perform_create vd w = (Return r, w1) /\
    Report.status r = "generating" /\
    reports w1 !! Report.report_id r = Some r /\
    timers w1 = timers w ++ [{| interval := seconds 5; captured_report := r |}] /\
    forall i w2,
      timers w2 !! i = Some {| interval := seconds 5; captured_report := r |} ->
      is_Some (products w2 !! product_id) ->
      exists r',
        reports (Timer_run i w2) !! Report.report_id r = Some r' /\
        Report.status r' = "completed" /\
        Report.generated_at r' = Some (clock w2 (clock_reads w2)) /\
        Report.expires_at r' =
          Some (clock w2 (S (clock_reads w2)) + timedelta 30) /\
        Report.report_url r' =
          Some ("/api/v1/reports/" +:+ str_uuid (Report.report_id r) +:+ "/download") /\
        timers (Timer_run i w2) = delete i (timers w2).
Proof.
  intros Hvd Hp Hfresh.
  pose proof (perform_create_run vd product_id w Hvd Hp Hfresh) as Hrun.
  cbv zeta in Hrun. eexists _, _. split; [exact Hrun|]. simpl.
  rewrite lookup_insert_eq. do 3 (split; [reflexivity|]).
  intros i w2 Hi [p2 Hp2]. unfold Timer_run. rewrite Hi.
  unfold ReportViewSet.complete_report, Report_save. run.
  destruct (reports w2 !! uuid_source w (uuid_draws w)) as [stored|];
    run; rewrite Hp2; run; rewrite lookup_insert_eq;
    eexists; repeat split; reflexivity.
Qed.

Lemma report_lifecycle_witness :
  exists r w1,
    ReportViewSet.perform_create Sample.new_report
      (Sample.world "submitted" "completed" "completed") = (Return r, w1) /\
    Report.status r = "generating".
Proof.
  destruct (report_lifecycle Sample.new_report 10%N
              (Sample.world "submitted" "completed" "completed"))
    as (r & w1 & Hrun & Hstatus & _).
  - reflexivity.
  - vm_compute. eexists. reflexivity.
  - vm_compute. reflexivity.
  - exists r, w1. split; assumption.
Defined.

(** C6 as stated fails on the expiry: with a clock that moves between
    two readings, the completed report expires later than thirty days
    after [generated_at]. *)
Lemma report_expiry_counterexample :
  let w1 := (ReportViewSet.perform_create Sample.new_report
               (Sample.world "submitted" "completed" "completed")).2 in
  exists r g e,
    reports (Timer_run 0 w1) !! 1000%N = Some r /\
    Report.status r = "completed" /\
    Report.generated_at r = Some g /\
    Report.expires_at r = Some e /\
    e <> g + timedelta 30.
Proof.
  cbv zeta. eexists _, _, _.
  split; [vm_compute; reflexivity|]. repeat split. vm_compute. discriminate.
Qed.

(** ** Who may call *)

(** C9, as the code has it, for [submit]: a caller who is neither staff
    nor the product's supplier does not find the product.  The view
    raises [Http404] and writes nothing. *)
Theorem submit_hidden_from_other_suppliers request pk w p :
  products w !! pk = Some p ->
  Supplier.is_staff (user request) = false ->
  Supplier.supplier_id (user request) <> Product.supplier p ->
  ProductViewSet.submit request pk w = (Raise Http404, w).
Proof.
  intros Hp Hstaff Hother.
  unfold ProductViewSet.submit, ProductViewSet.get_object, get_object_or_404.
  run. destruct (ProductViewSet.get_queryset request w !! pk) as [[p' s]|] eqn:Hq.
  - destruct (product_in_queryset _ _ _ _ _ Hq) as [Hp' _].
    pose proof (product_queryset_scoped _ _ _ _ _ Hq Hstaff) as Hown.
    congruence.
  - by rewrite (product_filtered_None request _ pk Hq).
Qed.

Lemma submit_hidden_from_other_suppliers_witness :
  ProductViewSet.submit (Sample.request Sample.bob ∅) 10%N
    (Sample.world "draft" "scheduled" "generating")
  = (Raise Http404, Sample.world "draft" "scheduled" "generating").
Proof.
  apply (submit_hidden_from_other_suppliers (Sample.request Sample.bob ∅) 10%N
           (Sample.world "draft" "scheduled" "generating") (Sample.widget "draft")).
  - vm_compute. reflexivity.
  - reflexivity.
  - vm_compute. discriminate.
Defined.

(** C9 as stated fails: Bob is not staff and does not own Alice's
    product.  His [submit] is answered with [Http404], not with a
    permission error; his [start] of a test of that product succeeds and
    changes the stored test, and so does his [complete]. *)
Lemma other_supplier_counterexample :
  let w := Sample.world "draft" "scheduled" "generating" in
  let request := Sample.request Sample.bob Sample.passed in
  Supplier.is_staff Sample.bob = false /\
  Supplier.supplier_id Sample.bob <> Product.supplier (Sample.widget "draft") /\
  Test.product (Sample.safety "scheduled") = Product.product_id (Sample.widget "draft") /\
  ~ PermissionError (ProductViewSet.submit request 10%N w).1 /\
  ~ PermissionError (TestViewSet.start request 20%N w).1 /\
  succeeded (TestViewSet.start request 20%N w).1 /\
  (Test.status <$> tests (TestViewSet.start request 20%N w).2 !! 20%N)
    = Some "in_progress" /\
  ~ PermissionError (TestViewSet.complete request 20%N w).1 /\
  succeeded (TestViewSet.complete request 20%N w).1 /\
  (Test.status <$> tests (TestViewSet.complete request 20%N w).2 !! 20%N)
    = Some "completed".
Proof.
  cbv zeta. unfold PermissionError, succeeded.
  repeat split; try (vm_compute; (reflexivity || discriminate)).
  - eexists. split; vm_compute; reflexivity.
  - eexists. split; vm_compute; reflexivity.
Qed.

(** ** The audit trail along the other paths *)

Lemma last_status_cons previous h0 hs :
  last_status previous (h0 :: hs) = last_status (TestHistory.new_status h0) hs.
Proof.
  unfold last_status. destruct hs as [|h1 hs]; [reflexivity|].
  rewrite last_cons_cons.
  destruct (last (h1 :: hs)) eqn:Hlast; [reflexivity|].
  by apply last_None in Hlast.
Qed.

Lemma linked_snoc previous hs h :
  linked previous (hs ++ [h]) =
  linked previous hs && bool_decide (TestHistory.old_status h = last_status previous hs).
Proof.
  revert previous. induction hs as [|h0 hs IH]; intros previous.
  - simpl. by rewrite andb_true_r.
  - simpl. by rewrite IH, last_status_cons, andb_assoc.
Qed.

Lemma replay_snoc hs h : replay (hs ++ [h]) = TestHistory.new_status h.
Proof. unfold replay. by rewrite last_snoc. Qed.

Lemma replay_last_status hs v : replay hs = Some v -> last_status None hs = Some v.
Proof. unfold replay, last_status. destruct (last hs); [done | discriminate]. Qed.

Lemma trail_complete_true pk w :
  trail_complete pk w = true <->
  linked None (history_of pk w) = true /\
  replay (history_of pk w) = Test.status <$> tests w !! pk.
Proof. unfold trail_complete. by rewrite andb_true_iff, bool_decide_eq_true. Qed.

Lemma history_of_snoc pk w w' h :
  test_history w' = test_history w ++ [h] ->
  TestHistory.test h = pk ->
  history_of pk w' = history_of pk w ++ [h].
Proof.
  intros Hh Ht. unfold history_of. rewrite Hh, filter_app.
  by rewrite (filter_cons_True _ h []).
Qed.

(** A write that appends a record from the stored status to the new
    one keeps the trail complete. *)
Lemma trail_extends pk w w' x x' h :
  trail_complete pk w = true ->
  tests w !! pk = Some x ->
  tests w' !! pk = Some x' ->
  test_history w' = test_history w ++ [h] ->
  TestHistory.test h = pk ->
  TestHistory.old_status h = Some (Test.status x) ->
  TestHistory.new_status h = Some (Test.status x') ->
  trail_complete pk w' = true.
Proof.
  intros Htrail Hx Hx' Hh Ht Hold Hnew.
  apply trail_complete_true in Htrail as [Hlinked Hreplay].
  rewrite Hx in Hreplay. simpl in Hreplay.
  apply trail_complete_true.
  rewrite (history_of_snoc pk w w' h Hh Ht), linked_snoc, replay_snoc.
  rewrite Hlinked, (replay_last_status _ _ Hreplay), Hold, Hx', Hnew.
  by rewrite bool_decide_true.
Qed.

(** A write that appends a record starting anywhere else breaks it. *)
Lemma trail_breaks pk w w' x h :
  trail_complete pk w = true ->
  tests w !! pk = Some x ->
  test_history w' = test_history w ++ [h] ->
  TestHistory.test h = pk ->
  TestHistory.old_status h <> Some (Test.status x) ->
  linked None (history_of pk w') = false.
Proof.
  intros Htrail Hx Hh Ht Hold.
  apply trail_complete_true in Htrail as [Hlinked Hreplay].
  rewrite Hx in Hreplay. simpl in Hreplay.
  rewrite (history_of_snoc pk w w' h Hh Ht), linked_snoc.
  rewrite Hlinked, (replay_last_status _ _ Hreplay).
  by rewrite bool_decide_false.
Qed.

Lemma start_run request pk w x p :
  TestViewSet.get_queryset request w !! pk = Some (x, p) ->
  Test.test_id x = pk ->
  Test.status x = "scheduled" ->
  let x' :=
    Test.set_updated_at (clock w (1 + clock_reads w)%nat)
      (Test.set_started_at (Some (clock w (clock_reads w)))
         (Test.set_status "in_progress" x)) in
  let h :=
    TestHistory.mk (uuid_source w (uuid_draws w)) pk
      (Supplier.username (user request)) "test_started"
      (Some "scheduled") (Some "in_progress") None
      (clock w (2 + clock_reads w)%nat) empty_dict in
  TestViewSet.start request pk w =
    (Return {| body := TestBody x'; status_code := HTTP_200_OK |},
     Build_World (suppliers w) (products w) (<[pk := x']> (tests w))
       (test_history w ++ [h]) (reports w) (notifications w) (timers w)
       (clock w) (3 + clock_reads w)%nat (uuid_source w) (1 + uuid_draws w)%nat).
Proof.
  intros Hq Hid Hs. subst pk.
  destruct (test_in_queryset _ _ _ _ _ Hq) as [Hx Hp].
  unfold TestViewSet.start, TestViewSet.get_object, get_object_or_404.
  run. rewrite Hq. simpl.
  rewrite (proj2 (str_ne_false _ _) Hs). run.
  rewrite Test_save_run by (simpl; eauto). run.
  rewrite TestHistory_objects_create_run
    by (simpl; rewrite lookup_insert_eq; eauto).
  reflexivity.
Qed.

(** X4. [start] keeps the trail complete: if the records of a scheduled
    test told its story before the call, they tell it after. *)
Lemma start_keeps_trail request pk w x p :
  consistent w ->
  TestViewSet.get_queryset request w !! pk = Some (x, p) ->
  Test.status x = "scheduled" ->
  trail_complete pk w = true ->
  trail_complete pk (TestViewSet.start request pk w).2 = true.
Proof.
  intros Hw Hq Hs Htrail.
  destruct (test_in_queryset _ _ _ _ _ Hq) as [Hx Hp].
  pose proof (consistent_test _ _ _ Hw Hx) as Hid.
  rewrite (start_run request pk w x p Hq Hid Hs). simpl.
  eapply (trail_extends pk w _ x); simpl; try done.
  - apply lookup_insert_eq.
  - simpl. by rewrite Hs.
  - reflexivity.
Qed.

(** [complete] keeps the trail complete only for a test that was
    'completed' already; from any other status it leaves a gap. *)
Lemma complete_breaks_trail request pk w x p rs :
  consistent w ->
  TestViewSet.get_queryset request w !! pk = Some (x, p) ->
  data request !! "result_status" = Some rs -> rs <> EmptyString ->
  trail_complete pk w = true ->
  Test.status x <> "completed" ->
  linked None (history_of pk (TestViewSet.complete request pk w).2) = false.
Proof.
  intros Hw Hq Hrs Hne Htrail Hs.
  destruct (test_in_queryset _ _ _ _ _ Hq) as [Hx Hp].
  pose proof (consistent_test _ _ _ Hw Hx) as Hid.
  destruct (consistent_product _ _ _ Hw Hp) as (_ & s & Hsup & _).
  rewrite (complete_run request pk w x p s rs Hq Hid Hsup Hrs Hne). simpl.
  eapply (trail_breaks pk w _ x); simpl; try done.
  simpl. congruence.
Qed.

Lemma update_run request pk vd w x p :
  TestViewSet.get_queryset request w !! pk = Some (x, p) ->
  Test.test_id x = pk ->
  is_Some (products w !! Test.product (TestSerializer.setattrs x vd)) ->
  let changed := TestSerializer.status_changes x vd in
  let h :=
    TestHistory.mk (uuid_source w (uuid_draws w)) pk
      (Supplier.username (user request)) "status_update"
      (Some (Test.status x)) (TestSerializer.status vd) None
      (clock w (clock_reads w)) empty_dict in
  let t := if changed then S (clock_reads w) else clock_reads w in
  let x' := Test.set_updated_at (clock w t) (TestSerializer.setattrs x vd) in
  TestViewSet.update request pk vd w =
    (Return {| body := TestBody x'; status_code := HTTP_200_OK |},
     Build_World (suppliers w) (products w) (<[pk := x']> (tests w))
       (if changed then test_history w ++ [h] else test_history w)
       (reports w) (notifications w) (timers w)
       (clock w) (S t) (uuid_source w)
       (if changed then S (uuid_draws w) else uuid_draws w)).
Proof.
  intros Hq Hid Hfk. subst pk.
  destruct (test_in_queryset _ _ _ _ _ Hq) as [Hx Hp].
  unfold TestViewSet.update, TestViewSet.get_object, get_object_or_404.
  run. rewrite Hq. simpl. rewrite bind_run.
  unfold TestSerializer.update, TestSerializer.super_update.
  destruct (TestSerializer.status_changes x vd); run.
  - rewrite TestHistory_objects_create_run by eauto. run.
    rewrite Test_save_run by (simpl; exact Hfk). reflexivity.
  - rewrite Test_save_run by (simpl; exact Hfk). reflexivity.
Qed.

(** X5. The generic update path keeps the trail complete, whether or
    not the write changes the status. *)
Lemma update_keeps_trail request pk vd w x p :
  consistent w ->
  TestViewSet.get_queryset request w !! pk = Some (x, p) ->
  is_Some (products w !! Test.product (TestSerializer.setattrs x vd)) ->
  trail_complete pk w = true ->
  trail_complete pk (TestViewSet.update request pk vd w).2 = true.
Proof.
  intros Hw Hq Hfk Htrail.
  destruct (test_in_queryset _ _ _ _ _ Hq) as [Hx Hp].
  pose proof (consistent_test _ _ _ Hw Hx) as Hid.
  rewrite (update_run request pk vd w x p Hq Hid Hfk). simpl.
  unfold TestSerializer.status_changes.
  destruct (TestSerializer.status vd) as [s|] eqn:Hs;
    [destruct (str_ne s (Test.status x)) eqn:Hne|].
  - eapply (trail_extends pk w _ x); simpl; try done.
    all: unfold TestSerializer.setattrs; simpl;
      rewrite ?lookup_insert_eq, ?Hs; reflexivity.
  - apply str_ne_false in Hne. subst s.
    apply trail_complete_true in Htrail as [Hlinked Hreplay].
    apply trail_complete_true. unfold history_of, TestSerializer.setattrs in *.
    simpl. rewrite lookup_insert_eq, Hs. simpl. rewrite Hx in Hreplay. done.
  - apply trail_complete_true in Htrail as [Hlinked Hreplay].
    apply trail_complete_true. unfold history_of, TestSerializer.setattrs in *.
    simpl. rewrite lookup_insert_eq, Hs. simpl. rewrite Hx in Hreplay. done.
Qed.

Lemma no_history_of_unknown_test pk w :
  consistent w -> tests w !! pk = None -> history_of pk w = [].
Proof.
  intros [_ (_ & _ & _ & Hfk)] Hnone. unfold history_of.
  induction Hfk as [|h hs [x Hh] _ IH]; [reflexivity|].
  rewrite filter_cons_False; [exact IH|]. intros Heq. congruence.
Qed.

(** X3. A test created through [TestViewSet.perform_create] starts
    with a complete trail: its status is the one given, 'pending' if none
    was, and it has one record, from no status to that status. *)
Lemma perform_create_starts_trail request vd product_id w :
  consistent w ->
  TestSerializer.product vd = Some product_id ->
  is_Some (products w !! product_id) ->
  tests w !! uuid_source w (uuid_draws w) = None ->
  exists x w',
    TestViewSet.perform_create request vd w = (Return x, w') /\
    Test.test_id x = uuid_source w (uuid_draws w) /\
    Test.status x = default "pending" (TestSerializer.status vd) /\
    (TestHistory.old_status <$> history_of (Test.test_id x) w') = [None] /\
    trail_complete (Test.test_id x) w' = true.
Proof.
  intros Hw Hvd [p Hp] Hfresh.
  pose proof (no_history_of_unknown_test _ _ Hw Hfresh) as Hnone.
  unfold TestViewSet.perform_create, TestSerializer.create.
  run. rewrite Hvd. simpl. rewrite Hp, Hfresh. run.
  rewrite TestHistory_objects_create_run
    by (simpl; rewrite lookup_insert_eq; eauto).
  run. eexists _, _. split; [reflexivity|]. simpl.
  split; [reflexivity|]. split; [reflexivity|].
  unfold trail_complete, history_of in *. simpl.
  rewrite filter_app, Hnone, lookup_insert_eq. simpl.
  rewrite filter_cons_True by reflexivity. simpl.
  split; [reflexivity|]. by rewrite bool_decide_true.
Qed.

(** ** Every view keeps the store's constraints *)

Lemma consistent_ext w w' :
  suppliers w' = suppliers w -> products w' = products w ->
  tests w' = tests w -> reports w' = reports w ->
  test_history w' = test_history w ->
  consistent w -> consistent w'.
Proof.
  unfold consistent, primary_keys, foreign_keys.
  intros -> -> -> -> ->. done.
Qed.

Lemma consistent_insert_product w p :
  consistent w -> is_Some (suppliers w !! Product.supplier p) ->
  consistent (set_products (<[Product.product_id p := p]> (products w)) w).
Proof.
  intros [(Ks & Kp & Kt & Kr) (Fp & Ft & Fr & Fh)] Hs.
  repeat split; simpl; try done.
  - by apply map_Forall_insert_2.
  - by apply map_Forall_insert_2.
  - intros k x Hx. apply lookup_insert_is_Some'. right. exact (Ft k x Hx).
  - intros k r Hr. apply lookup_insert_is_Some'. right. exact (Fr k r Hr).
Qed.

Lemma consistent_insert_test w x :
  consistent w -> is_Some (products w !! Test.product x) ->
  consistent (set_tests (<[Test.test_id x := x]> (tests w)) w).
Proof.
  intros [(Ks & Kp & Kt & Kr) (Fp & Ft & Fr & Fh)] Hp.
  repeat split; simpl; try done.
  - by apply map_Forall_insert_2.
  - by apply map_Forall_insert_2.
  - eapply Forall_impl; [exact Fh|]. intros h Hh.
    apply lookup_insert_is_Some'. by right.
Qed.

Lemma consistent_insert_report w r :
  consistent w -> is_Some (products w !! Report.product r) ->
  consistent (set_reports (<[Report.report_id r := r]> (reports w)) w).
Proof.
  intros [(Ks & Kp & Kt & Kr) (Fp & Ft & Fr & Fh)] Hp.
  repeat split; simpl; try done; by apply map_Forall_insert_2.
Qed.

Lemma consistent_append_history w h :
  consistent w -> is_Some (tests w !! TestHistory.test h) ->
  consistent (set_test_history (test_history w ++ [h]) w).
Proof.
  intros [(Ks & Kp & Kt & Kr) (Fp & Ft & Fr & Fh)] Ht.
  repeat split; simpl; try done.
  apply Forall_app. split; [done | by constructor].
Qed.

Lemma preserves_ret {A} (a : A) : preserves (mret a).
Proof. intros w Hw. exact Hw. Qed.

Lemma preserves_raise {A} e : preserves (raise e : M A).
Proof. intros w Hw. exact Hw. Qed.

Lemma preserves_bind {A B} (m : M A) (f : A -> M B) :
  preserves m -> (forall a, preserves (f a)) -> preserves (m ≫= f).
Proof.
  intros Hm Hf w Hw. rewrite bind_run. specialize (Hm w Hw).
  destruct (m w) as [[a|e] w']; simpl in *; [by apply Hf | done].
Qed.

Lemma preserves_get_world : preserves get_world.
Proof. intros w Hw. exact Hw. Qed.

Lemma preserves_modify f :
  (forall w, consistent w -> consistent (f w)) -> preserves (modify f).
Proof. intros Hf w Hw. by apply Hf. Qed.

Lemma preserves_timezone_now : preserves timezone_now.
Proof. intros w Hw. by apply (consistent_ext w). Qed.

Lemma preserves_uuid4 : preserves uuid4.
Proof. intros w Hw. by apply (consistent_ext w). Qed.

Create HintDb store discriminated.

#[local] Hint Resolve preserves_ret preserves_raise preserves_get_world
  preserves_timezone_now preserves_uuid4 : store.

(** Split a computation at its binds and branches, down to the
    operations that are known to keep the constraints. *)
Ltac preserve :=
  repeat first
    [ progress auto with store
    | apply preserves_bind; [|intros ?]
    | match goal with
      | |- preserves (match ?c with _ => _ end) => destruct c
      | |- preserves (let '(_, _) := ?c in _) => destruct c
      end ].

Lemma preserves_Product_save p : preserves (Product_save p).
Proof.
  intros w Hw. unfold Product_save. run.
  destruct (suppliers w !! Product.supplier p) eqn:Hs; run.
  - match goal with |- consistent (set_products (<[_ := ?q]> _) ?v) =>
      apply (consistent_insert_product v q)
    end.
    + by apply (consistent_ext w).
    + simpl. rewrite Hs. eauto.
  - by apply (consistent_ext w).
Qed.

Lemma preserves_Test_save x : preserves (Test_save x).
Proof.
  intros w Hw. unfold Test_save. run.
  destruct (products w !! Test.product x) eqn:Hp; run.
  - match goal with |- consistent (set_tests (<[_ := ?y]> _) ?v) =>
      apply (consistent_insert_test v y)
    end.
    + by apply (consistent_ext w).
    + simpl. rewrite Hp. eauto.
  - by apply (consistent_ext w).
Qed.

Lemma preserves_Report_save r : preserves (Report_save r).
Proof.
  intros w Hw. unfold Report_save. run.
  destruct (reports w !! Report.report_id r) as [stored|]; run.
  - destruct (products w !! Report.product r) eqn:Hp; run; [|done].
    apply consistent_insert_report; [done | rewrite Hp; eauto].
  - destruct (products w !! Report.product r) eqn:Hp; run.
    + match goal with |- consistent (set_reports (<[_ := ?q]> _) ?v) =>
        apply (consistent_insert_report v q)
      end.
      * by apply (consistent_ext w).
      * simpl. rewrite Hp. eauto.
    + by apply (consistent_ext w).
Qed.

Lemma preserves_TestHistory_objects_create test by_ type_ old new descr :
  preserves (TestHistory_objects_create test by_ type_ old new descr).
Proof.
  intros w Hw. unfold TestHistory_objects_create. run.
  destruct (tests w !! Test.test_id test) eqn:Ht; run.
  - match goal with |- consistent (set_test_history (_ ++ [?h]) ?v) =>
      apply (consistent_append_history v h)
    end.
    + by apply (consistent_ext w).
    + simpl. rewrite Ht. eauto.
  - by apply (consistent_ext w).
Qed.

Lemma preserves_Notification_objects_create to type_ kind subject message status sent :
  preserves (Notification_objects_create to type_ kind subject message status sent).
Proof. intros w Hw. by apply (consistent_ext w). Qed.

Lemma preserves_Product_supplier p : preserves (Product_supplier p).
Proof.
  intros w Hw. unfold Product_supplier. run.
  by destruct (suppliers w !! Product.supplier p).
Qed.

Lemma preserves_get_object_or_404 {A} (queryset : gmap UUID A) pk :
  preserves (get_object_or_404 queryset pk).
Proof.
  unfold get_object_or_404.
  destruct (queryset !! pk); [apply preserves_ret | apply preserves_raise].
Qed.

Lemma preserves_TestSerializer_create vd : preserves (TestSerializer.create vd).
Proof.
  intros w Hw. unfold TestSerializer.create. run.
  assert (Hw' : consistent (set_clock_reads (S (S (clock_reads w)))
                              (set_clock_reads (S (clock_reads w))
                                 (set_uuid_draws (S (uuid_draws w)) w))))
    by (by apply (consistent_ext w)).
  destruct (TestSerializer.product vd) as [product_id|]; run; [|done].
  destruct (products w !! product_id) eqn:Hp; run; [|done].
  destruct (tests w !! uuid_source w (uuid_draws w)) eqn:Ht; run; [done|].
  match goal with |- consistent (set_tests (<[_ := ?x]> _) ?v) =>
    apply (consistent_insert_test v x); [done | simpl; rewrite Hp; eauto]
  end.
Qed.

Lemma preserves_ReportSerializer_save vd status :
  preserves (ReportSerializer.save vd status).
Proof.
  intros w Hw. unfold ReportSerializer.save. run.
  assert (Hw' : consistent (set_clock_reads (S (clock_reads w))
                              (set_uuid_draws (S (uuid_draws w)) w)))
    by (by apply (consistent_ext w)).
  destruct (ReportSerializer.product vd) as [product_id|]; run; [|done].
  destruct (products w !! product_id) eqn:Hp; run; [|done].
  destruct (reports w !! uuid_source w (uuid_draws w)) eqn:Hr; run; [done|].
  match goal with |- consistent (set_reports (<[_ := ?r]> _) ?v) =>
    apply (consistent_insert_report v r); [done | simpl; rewrite Hp; eauto]
  end.
Qed.

#[local] Hint Resolve preserves_Product_save preserves_Test_save
  preserves_Report_save preserves_TestHistory_objects_create
  preserves_Notification_objects_create preserves_Product_supplier
  preserves_get_object_or_404 preserves_TestSerializer_create
  preserves_ReportSerializer_save : store.

(** X1. The store's constraints (rows filed under their own key, no
    dangling foreign key) are an invariant of the views: each of them,
    whether it succeeds, answers an error or raises, leaves a consistent
    world consistent. *)
Lemma views_preserve request pk :
  preserves (ProductViewSet.submit request pk) /\
  preserves (TestViewSet.start request pk) /\
  preserves (TestViewSet.complete request pk) /\
  (forall vd, preserves (TestViewSet.update request pk vd)) /\
  (forall vd, preserves (TestViewSet.perform_create request vd)) /\
  (forall vd, preserves (ReportViewSet.perform_create vd)) /\
  preserves (ReportViewSet.status_check request pk) /\
  preserves (ReportViewSet.download request pk).
Proof.
  unfold ProductViewSet.submit, ProductViewSet.get_object,
    TestViewSet.start, TestViewSet.complete, TestViewSet.update,
    TestViewSet.get_object, TestViewSet.perform_create, TestSerializer.update,
    TestSerializer.super_update, ReportViewSet.perform_create,
    ReportViewSet.status_check, ReportViewSet.download, ReportViewSet.get_object.
  repeat apply conj;
    try lazymatch goal with |- forall _ : _, _ => intros vd end;
    preserve.
Qed.


(** * Further properties of the views *)

(** ** Which products a caller sees *)

(** The product queryset, row by row: a stored product joined with its
    supplier, owned by the caller unless the caller is staff, and passing
    the non-empty [status] and [category] filters of the query string. *)
Lemma product_queryset_row request w pk p s :
  ProductViewSet.get_queryset request w !! pk = Some (p, s) <->
  products w !! pk = Some p /\ suppliers w !! Product.supplier p = Some s /\
  (Supplier.is_staff (user request) = false ->
   Product.supplier p = Supplier.supplier_id (user request)) /\
  (truthy (q_status (query_params request)) = true ->
   Some (Product.submission_status p) = q_status (query_params request)) /\
  (truthy (q_category (query_params request)) = true ->
   Some (Product.category p) = q_category (query_params request)).
Proof.
  unfold ProductViewSet.get_queryset. cbv zeta.
  rewrite !lookup_filter_if, lookup_omap_Some. simpl. split.
  - intros [[[(p' & Hj & Hp) Hown] Hst] Hcat].
    destruct (suppliers w !! Product.supplier p') as [s'|] eqn:Hs; simplify_eq/=.
    repeat split; try done.
    intros Hstaff. apply Hown. by rewrite Hstaff.
  - intros (Hp & Hs & Hown & Hst & Hcat). repeat split; try done.
    + exists p. by rewrite Hs.
    + intros Hstaff. apply Hown. by apply negb_true_iff.
Qed.

(** X7. [ProductViewSet.get_queryset] scopes by owner.  A caller who is
    not staff never gets a product of another supplier, whatever the
    query string; and with no [status] or [category] filter the caller
    gets every stored product that is their own, and staff gets every
    stored product. *)
Theorem product_queryset_scoping request w :
  (Supplier.is_staff (user request) = false ->
   forall pk p s,
     ProductViewSet.get_queryset request w !! pk = Some (p, s) ->
     Product.supplier p = Supplier.supplier_id (user request)) /\
  (truthy (q_status (query_params request)) = false ->
   truthy (q_category (query_params request)) = false ->
   forall pk p s,
     products w !! pk = Some p ->
     suppliers w !! Product.supplier p = Some s ->
     Supplier.is_staff (user request) = true
     \/ Product.supplier p = Supplier.supplier_id (user request) ->
     ProductViewSet.get_queryset request w !! pk = Some (p, s)).
Proof.
  split.
  - intros Hstaff pk p s Hq.
    apply (product_queryset_row request w pk p s) in Hq as (_ & _ & Hown & _).
    by apply Hown.
  - intros Hst Hcat pk p s Hp Hs Hmay. apply product_queryset_row.
    repeat split; try done.
    + intros Hstaff. destruct Hmay as [Hyes|Hown]; [congruence | exact Hown].
    + intros Hyes. rewrite Hst in Hyes. discriminate.
    + intros Hyes. rewrite Hcat in Hyes. discriminate.
Qed.

Lemma product_queryset_scoping_witness :
  ProductViewSet.get_queryset (Sample.request Sample.root ∅)
    (Sample.world "draft" "scheduled" "generating") !! 10%N
  = Some (Sample.widget "draft", Sample.alice).
Proof.
  apply (product_queryset_scoping (Sample.request Sample.root ∅)
           (Sample.world "draft" "scheduled" "generating")).
  - reflexivity.
  - reflexivity.
  - vm_compute. reflexivity.
  - vm_compute. reflexivity.
  - left. reflexivity.
Defined.

(** ** Transitions cannot be repeated *)

Lemma submit_run request pk w p s :
  ProductViewSet.filter_queryset request (ProductViewSet.get_queryset request w) !! pk
    = Some (p, s) ->
  Product.product_id p = pk ->
  Product.submission_status p = "draft" ->
  let p' :=
    Product.set_updated_at (clock w (1 + clock_reads w)%nat)
      (Product.set_submission_date (Some (clock w (clock_reads w)))
         (Product.set_submission_status "submitted" p)) in
  let n :=
    Notification.mk (uuid_source w (uuid_draws w)) (Supplier.supplier_id s)
      "supplier" "product_submitted" "Product Submitted"
      ("Your product " +:+ quote +:+ Product.name p +:+ quote
         +:+ " has been submitted for testing.")
      "sent" (Some (clock w (2 + clock_reads w)%nat)) None
      (clock w (3 + clock_reads w)%nat) empty_dict in
  ProductViewSet.submit request pk w =
    (Return {| body := ProductBody p' "Product submitted successfully for testing";
               status_code := HTTP_200_OK |},
     Build_World (suppliers w) (<[pk := p']> (products w)) (tests w)
       (test_history w) (reports w) (notifications w ++ [n]) (timers w)
       (clock w) (4 + clock_reads w)%nat (uuid_source w) (1 + uuid_draws w)%nat).
Proof.
  intros Hfound Hid Hd. subst pk.
  pose proof (proj1 (product_filtered_row _ _ _ _ _) Hfound) as [Hq _].
  destruct (product_in_queryset _ _ _ _ _ Hq) as [Hp Hs].
  unfold ProductViewSet.submit, ProductViewSet.get_object, get_object_or_404.
  run. rewrite Hfound. simpl. rewrite (proj2 (str_ne_false _ _) Hd). run.
  rewrite Product_save_run by (simpl; eauto). run. reflexivity.
Qed.

(** X8. [submit] cannot be repeated.  Once a draft the call finds
    (a row of the caller's queryset that passes the search filter) has
    been submitted, the same request, unless it filters by status, finds
    the product again, for [submit] writes none of the search fields; it
    is answered INVALID_STATE and writes nothing. *)
Theorem submit_not_repeatable request pk w p s :
  consistent w ->
  ProductViewSet.filter_queryset request (ProductViewSet.get_queryset request w) !! pk
    = Some (p, s) ->
  Product.submission_status p = "draft" ->
  truthy (q_status (query_params request)) = false ->
  let w1 := (ProductViewSet.submit request pk w).2 in
  InvalidStateError (ProductViewSet.submit request pk w1).1 /\
  (ProductViewSet.submit request pk w1).2 = w1.
Proof.
  intros Hw Hfound Hd Hnofilter.
  pose proof (proj1 (product_filtered_row _ _ _ _ _) Hfound) as [Hq Hmatch].
  destruct (proj1 (product_queryset_row _ _ _ _ _) Hq)
    as (Hp & Hs & Hown & _ & Hcat).
  destruct (consistent_product _ _ _ Hw Hp) as (Hid & _).
  rewrite (submit_run request pk w p s Hfound Hid Hd). cbv zeta. simpl.
  match goal with |- context [ProductViewSet.submit _ _ ?v] => set (w1 := v) end.
  match goal with w1 := Build_World _ (<[_ := ?q]> _) _ _ _ _ _ _ _ _ _ |- _ =>
    set (p1 := q) in *
  end.
  assert (Hq1 : ProductViewSet.filter_queryset request
                    (ProductViewSet.get_queryset request w1) !! pk = Some (p1, s)).
  { apply product_filtered_row. split; [|exact Hmatch].
    apply product_queryset_row. subst w1 p1. simpl.
    rewrite lookup_insert_eq. repeat split; try done.
    intros Hyes. rewrite Hnofilter in Hyes. discriminate. }
  unfold ProductViewSet.submit, ProductViewSet.get_object, get_object_or_404.
  run. rewrite Hq1. simpl. split; [eexists; reflexivity | reflexivity].
Qed.

Lemma submit_not_repeatable_witness :
  let w1 := (ProductViewSet.submit (Fixture.searching Sample.alice "widget") 10%N
               (Sample.world "draft" "scheduled" "generating")).2 in
  InvalidStateError
    (ProductViewSet.submit (Fixture.searching Sample.alice "widget") 10%N w1).1 /\
  (ProductViewSet.submit (Fixture.searching Sample.alice "widget") 10%N w1).2 = w1.
Proof.
  apply (submit_not_repeatable (Fixture.searching Sample.alice "widget") 10%N
           (Sample.world "draft" "scheduled" "generating")
           (Sample.widget "draft") Sample.alice).
  - apply sample_world_consistent.
  - vm_compute. reflexivity.
  - reflexivity.
  - reflexivity.
Defined.

(** X23. When [submit] answers not-found.  In a consistent store
    [submit] raises [Http404] exactly when the caller's queryset has no
    row under the key or the row there misses a search term of the
    request: a product of the caller's own is not found under
    [?search=] with a term that occurs in none of its name, category and
    sku.  Nothing is written then. *)
Theorem submit_not_found_iff request pk w :
  consistent w ->
  ((ProductViewSet.submit request pk w).1 = Raise Http404 <->
   forall p s,
     ProductViewSet.get_queryset request w !! pk = Some (p, s) ->
     SearchFilter.matches (SearchFilter.get_search_terms request)
       (ProductViewSet.search_fields p) = false) /\
  ((ProductViewSet.submit request pk w).1 = Raise Http404 ->
   (ProductViewSet.submit request pk w).2 = w).
Proof.
  intros Hw.
  destruct (ProductViewSet.filter_queryset request
              (ProductViewSet.get_queryset request w) !! pk) as [[p s]|] eqn:Hfound.
  - pose proof (proj1 (product_filtered_row _ _ _ _ _) Hfound) as [Hq Hmatch].
    destruct (product_in_queryset _ _ _ _ _ Hq) as [Hp Hs].
    destruct (consistent_product _ _ _ Hw Hp) as (Hid & _).
    assert (Hret : exists resp, (ProductViewSet.submit request pk w).1 = Return resp).
    { destruct (decide (Product.submission_status p = "draft")) as [Hd|Hd].
      - rewrite (submit_run request pk w p s Hfound Hid Hd). eexists. reflexivity.
      - unfold ProductViewSet.submit, ProductViewSet.get_object, get_object_or_404.
        run. rewrite Hfound. simpl. rewrite (proj2 (str_ne_true _ _) Hd).
        eexists. reflexivity. }
    destruct Hret as [resp Hret]. rewrite Hret. split; [split|]; try discriminate.
    intros Hmiss. specialize (Hmiss p s Hq). congruence.
  - assert (Hrun : ProductViewSet.submit request pk w = (Raise Http404, w)).
    { unfold ProductViewSet.submit, ProductViewSet.get_object, get_object_or_404.
      run. by rewrite Hfound. }
    rewrite Hrun. simpl. split; [split; [|reflexivity] | reflexivity].
    intros _ p s Hq.
    destruct (SearchFilter.matches _ _) eqn:Hmatch; [|reflexivity].
    rewrite (proj2 (product_filtered_row _ _ _ _ _) (conj Hq Hmatch)) in Hfound.
    discriminate.
Qed.

Lemma submit_not_found_iff_witness :
  (ProductViewSet.submit (Fixture.searching Sample.alice "widget, toys") 10%N
     (Sample.world "draft" "scheduled" "generating")).1 = Raise Http404.
Proof.
  destruct (submit_not_found_iff (Fixture.searching Sample.alice "widget, toys") 10%N
              (Sample.world "draft" "scheduled" "generating"))
    as [[_ Hmiss] _].
  - apply sample_world_consistent.
  - apply Hmiss. intros p s Hq.
    assert (Hrow : ProductViewSet.get_queryset
                     (Fixture.searching Sample.alice "widget, toys")
                     (Sample.world "draft" "scheduled" "generating") !! 10%N
                   = Some (Sample.widget "draft", Sample.alice))
      by (vm_compute; reflexivity).
    rewrite Hrow in Hq. injection Hq as <- <-. vm_compute. reflexivity.
Defined.

(** X9. [start] cannot be repeated: once a scheduled test has been
    started, the same request is answered INVALID_STATE and writes
    nothing. *)
Theorem start_not_repeatable request pk w x p :
  consistent w ->
  TestViewSet.get_queryset request w !! pk = Some (x, p) ->
  Test.status x = "scheduled" ->
  truthy (q_status (query_params request)) = false ->
  let w1 := (TestViewSet.start request pk w).2 in
  InvalidStateError (TestViewSet.start request pk w1).1 /\
  (TestViewSet.start request pk w1).2 = w1.
Proof.
  intros Hw Hq Hs Hnofilter.
  destruct (proj1 (test_queryset_lookup _ _ _ _ _) Hq) as (Hx & Hp & Hfp & _ & Hft).
  pose proof (consistent_test _ _ _ Hw Hx) as Hid.
  rewrite (start_run request pk w x p Hq Hid Hs). cbv zeta. simpl.
  match goal with |- context [TestViewSet.start _ _ ?v] => set (w1 := v) end.
  match goal with w1 := Build_World _ _ (<[_ := ?y]> _) _ _ _ _ _ _ _ _ |- _ =>
    set (x1 := y) in *
  end.
  assert (Hq1 : TestViewSet.get_queryset request w1 !! pk = Some (x1, p)).
  { apply test_queryset_lookup. subst w1 x1. simpl.
    rewrite lookup_insert_eq. repeat split; try done.
    intros Hyes. rewrite Hnofilter in Hyes. discriminate. }
  unfold TestViewSet.start, TestViewSet.get_object, get_object_or_404.
  run. rewrite Hq1. simpl. split; [eexists; reflexivity | reflexivity].
Qed.

Lemma start_not_repeatable_witness :
  let w1 := (TestViewSet.start (Sample.request Sample.bob ∅) 20%N
               (Sample.world "submitted" "scheduled" "generating")).2 in
  InvalidStateError (TestViewSet.start (Sample.request Sample.bob ∅) 20%N w1).1 /\
  (TestViewSet.start (Sample.request Sample.bob ∅) 20%N w1).2 = w1.
Proof.
  apply (start_not_repeatable (Sample.request Sample.bob ∅) 20%N
           (Sample.world "submitted" "scheduled" "generating")
           (Sample.safety "scheduled") (Sample.widget "submitted")).
  - apply sample_world_consistent.
  - vm_compute. reflexivity.
  - reflexivity.
  - reflexivity.
Defined.

(** ** Polling and downloading a report *)

(** X10. [status_check] only reads: for a report in the request's
    queryset it answers 200 with the report as stored and writes
    nothing; the answer carries the download path exactly when the report
    is 'completed'. *)
Theorem status_check_reads request pk w r p :
  ReportViewSet.get_queryset request w !! pk = Some (r, p) ->
  exists url,
    ReportViewSet.status_check request pk w =
      (Return {| body := ReportBody r url; status_code := HTTP_200_OK |}, w) /\
    (Report.status r = "completed" ->
     url = Some ("/api/v1/reports/" +:+ str_uuid (Report.report_id r) +:+ "/download")) /\
    (Report.status r <> "completed" -> url = None).
Proof.
  intros Hq.
  unfold ReportViewSet.status_check, ReportViewSet.get_object, get_object_or_404.
  run. rewrite Hq. simpl. eexists. split; [reflexivity|].
  unfold ReportSerializer.get_download_url.
  destruct (String.eqb (Report.status r) "completed") eqn:Hs; simpl.
  - apply String.eqb_eq in Hs. split; [done | congruence].
  - apply String.eqb_neq in Hs. split; [congruence | done].
Qed.

Lemma status_check_reads_witness :
  exists url,
    ReportViewSet.status_check (Sample.request Sample.alice ∅) 40%N
      (Sample.world "submitted" "completed" "generating") =
      (Return {| body := ReportBody (Sample.summary "generating") url;
                 status_code := HTTP_200_OK |},
       Sample.world "submitted" "completed" "generating") /\
    url = None.
Proof.
  destruct (status_check_reads (Sample.request Sample.alice ∅) 40%N
              (Sample.world "submitted" "completed" "generating")
              (Sample.summary "generating") (Sample.widget "submitted"))
    as (url & Hrun & _ & Hnone).
  - vm_compute. reflexivity.
  - exists url. split; [exact Hrun|]. apply Hnone. vm_compute. discriminate.
Defined.

(** The report queryset, row by row. *)
Lemma report_queryset_row request w pk r p :
  ReportViewSet.get_queryset request w !! pk = Some (r, p) <->
  reports w !! pk = Some r /\ products w !! Report.product r = Some p /\
  (forall id, q_product_id (query_params request) = Some id -> Report.product r = id) /\
  (truthy (q_status (query_params request)) = true ->
   Some (Report.status r) = q_status (query_params request)).
Proof.
  unfold ReportViewSet.get_queryset. cbv zeta.
  rewrite lookup_filter_if.
  rewrite (lookup_filter_match _ (fun b kv => Report.product kv.2.1 = b)).
  rewrite lookup_omap_Some. simpl. split.
  - intros [[(r' & Hj & Hr) ?] ?].
    destruct (products w !! Report.product r') as [p'|] eqn:Hp; simplify_eq/=; done.
  - intros (Hr & Hp & ? & ?). repeat split; try done.
    exists r. by rewrite Hp.
Qed.

(** X11. Create, poll, wait, download.  Right after [perform_create]
    the new report cannot be downloaded (NOT_READY); once its timer has
    gone off, [download] succeeds, [status_check] shows the download
    path, and no timer is left over. *)
Theorem report_ready_after_timer request vd product_id w :
  ReportSerializer.product vd = Some product_id ->
  is_Some (products w !! product_id) ->
  reports w !! uuid_source w (uuid_draws w) = None ->
  q_product_id (query_params request) = None ->
  truthy (q_status (query_params request)) = false ->
  let id := uuid_source w (uuid_draws w) in
  let w1 := (ReportViewSet.perform_create vd w).2 in
  let w2 := Timer_run (length (timers w)) w1 in
  NotReadyError (ReportViewSet.download request id w1).1 /\
  succeeded (ReportViewSet.download request id w2).1 /\
  (exists r,
     ReportViewSet.status_check request id w2 =
       (Return {| body := ReportBody r
                    (Some ("/api/v1/reports/" +:+ str_uuid id +:+ "/download"));
                  status_code := HTTP_200_OK |}, w2)) /\
  timers w2 = timers w.
Proof.
  intros Hvd Hp Hfresh Hnoid Hnostatus. cbv zeta.
  rewrite (perform_create_run vd product_id w Hvd Hp Hfresh). simpl.
  destruct Hp as [p Hp].
  match goal with |- context [ReportViewSet.download _ _ ?v] => set (w1 := v) end.
  assert (Hrow : forall v r, reports v !! uuid_source w (uuid_draws w) = Some r ->
                             products v = products w -> Report.product r = product_id ->
                             ReportViewSet.get_queryset request v
                               !! uuid_source w (uuid_draws w) = Some (r, p)).
  { intros v r Hr Hprod Hfk. apply report_queryset_row.
    rewrite Hprod, Hfk. repeat split; try done.
    - intros id Hid. congruence.
    - intros Hyes. rewrite Hnostatus in Hyes. discriminate. }
  split.
  { unfold ReportViewSet.download, ReportViewSet.get_object, get_object_or_404. run.
    erewrite Hrow; [| subst w1; simpl; apply lookup_insert_eq | reflexivity | reflexivity].
    simpl. eexists. reflexivity. }
  assert (Hfire : timers w1 !! length (timers w)
                  = Some {| interval := seconds 5;
                            captured_report :=
                              Report.mk (uuid_source w (uuid_draws w)) product_id
                                (default EmptyString (ReportSerializer.report_type vd))
                                (default "PDF" (ReportSerializer.report_format vd))
                                None None None "generating" None
                                (default None (ReportSerializer.expires_at vd)) None None
                                (default empty_dict (ReportSerializer.metadata vd))
                                (clock w (clock_reads w)) |}).
  { subst w1. simpl. by rewrite lookup_app_r, Nat.sub_diag. }
  unfold Timer_run. rewrite Hfire.
  unfold ReportViewSet.complete_report, Report_save. run.
  subst w1. simpl. rewrite lookup_insert_eq. run. rewrite Hp. run.
  match goal with |- context [ReportViewSet.download _ _ ?v] => set (w2 := v) end.
  assert (Hq2 : exists r, ReportViewSet.get_queryset request w2
                            !! uuid_source w (uuid_draws w) = Some (r, p)
                          /\ Report.status r = "completed"
                          /\ Report.report_id r = uuid_source w (uuid_draws w)).
  { eexists. split; [|split].
    - apply Hrow; [subst w2; simpl; apply lookup_insert_eq | reflexivity | reflexivity].
    - reflexivity.
    - reflexivity. }
  destruct Hq2 as (r2 & Hq2 & Hs2 & Hid2).
  split; [|split].
  - unfold ReportViewSet.download, ReportViewSet.get_object, get_object_or_404. run.
    rewrite Hq2. simpl. rewrite (proj2 (str_ne_false _ _) Hs2).
    eexists. split; reflexivity.
  - exists r2.
    unfold ReportViewSet.status_check, ReportViewSet.get_object, get_object_or_404. run.
    rewrite Hq2. simpl. rewrite (proj2 (String.eqb_eq _ _) Hs2), Hid2. reflexivity.
  - subst w2. simpl. by rewrite delete_middle, app_nil_r.
Qed.

Lemma report_ready_after_timer_witness :
  let w1 := (ReportViewSet.perform_create Sample.new_report
               (Sample.world "submitted" "completed" "completed")).2 in
  NotReadyError (ReportViewSet.download (Sample.request Sample.alice ∅) 1000%N w1).1 /\
  succeeded (ReportViewSet.download (Sample.request Sample.alice ∅) 1000%N
               (Timer_run 0 w1)).1.
Proof.
  destruct (report_ready_after_timer (Sample.request Sample.alice ∅)
              Sample.new_report 10%N
              (Sample.world "submitted" "completed" "completed"))
    as (Hbefore & Hafter & _).
  - reflexivity.
  - vm_compute. eexists. reflexivity.
  - vm_compute. reflexivity.
  - reflexivity.
  - reflexivity.
  - split; [exact Hbefore | exact Hafter].
Defined.

(** ** Which operations take history records away *)

Lemma appends_ret {A} (a : A) : appends_history (mret a).
Proof. intros w. reflexivity. Qed.

Lemma appends_raise {A} e : appends_history (raise e : M A).
Proof. intros w. reflexivity. Qed.

Lemma appends_get_world : appends_history get_world.
Proof. intros w. reflexivity. Qed.

Lemma appends_timezone_now : appends_history timezone_now.
Proof. intros w. reflexivity. Qed.

Lemma appends_uuid4 : appends_history uuid4.
Proof. intros w. reflexivity. Qed.

Lemma appends_modify f :
  (forall w, test_history w `prefix_of` test_history (f w)) ->
  appends_history (modify f).
Proof. intros Hf w. apply Hf. Qed.

Lemma appends_bind {A B} (m : M A) (f : A -> M B) :
  appends_history m -> (forall a, appends_history (f a)) -> appends_history (m ≫= f).
Proof.
  intros Hm Hf w. rewrite bind_run. specialize (Hm w).
  destruct (m w) as [[a|e] w']; simpl in *; [|done].
  etrans; [exact Hm | apply Hf].
Qed.

(** Split a computation at its binds and branches, down to the single
    writes. *)
Ltac append_only :=
  repeat first
    [ apply appends_ret | apply appends_raise | apply appends_get_world
    | apply appends_timezone_now | apply appends_uuid4
    | apply appends_modify; intros ?; simpl; first [reflexivity | by apply prefix_app_r]
    | apply appends_bind; [|intros ?]
    | match goal with
      | |- appends_history (match ?c with _ => _ end) => destruct c
      | |- appends_history (let '(_, _) := ?c in _) => destruct c
      end ].

Lemma destroy_test_run request pk w x p :
  TestViewSet.get_queryset request w !! pk = Some (x, p) ->
  Test.test_id x = pk ->
  TestViewSet.destroy request pk w =
    (Return {| body := NoBody; status_code := HTTP_204_NO_CONTENT |},
     set_tests (delete pk (tests w))
       (set_test_history
          (filter (fun h => TestHistory.test h <> pk) (test_history w)) w)).
Proof.
  intros Hq Hid.
  unfold TestViewSet.destroy, TestViewSet.get_object, get_object_or_404, Test_delete.
  run. rewrite Hq. simpl. by rewrite Hid.
Qed.

Lemma destroy_product_run request pk w p s :
  ProductViewSet.filter_queryset request (ProductViewSet.get_queryset request w) !! pk
    = Some (p, s) ->
  Product.product_id p = pk ->
  ProductViewSet.destroy request pk w =
    (Return {| body := NoBody; status_code := HTTP_204_NO_CONTENT |},
     set_products (delete pk (products w))
       (set_reports (filter (fun kv => Report.product kv.2 <> pk) (reports w))
          (set_tests (filter (fun kv => Test.product kv.2 <> pk) (tests w))
             (set_test_history
                (filter (fun h => filter (fun kv => Test.product kv.2 = pk) (tests w)
                                    !! TestHistory.test h = None)
                   (test_history w)) w)))).
Proof.
  intros Hfound Hid.
  unfold ProductViewSet.destroy, ProductViewSet.get_object, get_object_or_404,
    Product_delete.
  run. rewrite Hfound. simpl. by rewrite Hid.
Qed.

(** The records of one test among the records that a filter keeps. *)
Lemma history_of_filter (keep : TestHistory.t -> Prop)
    `{!forall h, Decision (keep h)} k w :
  filter (fun h => TestHistory.test h = k) (filter keep (test_history w))
  = filter keep (history_of k w).
Proof.
  unfold history_of. rewrite !list_filter_filter.
  apply list_filter_iff. intros h. tauto.
Qed.

Lemma filter_all {A} (P : A -> Prop) `{!forall x, Decision (P x)} (l : list A) :
  (forall x, x ∈ l -> P x) -> filter P l = l.
Proof.
  induction l as [|x l IH]; intros Hall; [reflexivity|].
  rewrite filter_cons_True by (apply Hall; by left).
  rewrite IH; [reflexivity|]. intros y Hy. apply Hall. by right.
Qed.

Lemma filter_none {A} (P : A -> Prop) `{!forall x, Decision (P x)} (l : list A) :
  (forall x, x ∈ l -> ~ P x) -> filter P l = [].
Proof.
  intros Hnone. apply elem_of_nil_inv. intros x Hx.
  apply list_elem_of_filter in Hx as [HP Hin]. exact (Hnone x Hin HP).
Qed.

(** X12. Which operations take history records away.  The custom
    actions, the create and update paths, the timer's closure and the
    admin's bulk actions leave the records that were there in place and
    in order, however they end: they can only add records at the end.
    The table is not append-only, though.  The [destroy] that
    [TestViewSet] and [ProductViewSet] inherit deletes, by cascade, the
    test or the tests of the product together with all their records,
    and leaves the records of every other test as they were. *)
Theorem history_removed_only_by_destroy request pk :
  appends_history (ProductViewSet.submit request pk) /\
  appends_history (TestViewSet.start request pk) /\
  appends_history (TestViewSet.complete request pk) /\
  (forall vd, appends_history (TestViewSet.update request pk vd)) /\
  (forall vd, appends_history (TestViewSet.perform_create request vd)) /\
  (forall vd, appends_history (ProductViewSet_perform_create request vd)) /\
  (forall vd, appends_history (ReportViewSet.perform_create vd)) /\
  appends_history (ReportViewSet.status_check request pk) /\
  appends_history (ReportViewSet.download request pk) /\
  appends_history (NotificationViewSet.mark_read request pk) /\
  (forall queryset, appends_history (TestAdmin.mark_as_completed queryset)) /\
  (forall queryset, appends_history (TestAdmin.mark_as_in_progress queryset)) /\
  (forall i w, test_history w `prefix_of` test_history (Timer_run i w)) /\
  (forall w x p,
     consistent w ->
     TestViewSet.get_queryset request w !! pk = Some (x, p) ->
     let w' := (TestViewSet.destroy request pk w).2 in
     tests w' !! pk = None /\
     history_of pk w' = [] /\
     (forall k, k <> pk -> history_of k w' = history_of k w) /\
     (history_of pk w <> [] -> ~ test_history w `prefix_of` test_history w')) /\
  (forall w p s,
     consistent w ->
     ProductViewSet.filter_queryset request (ProductViewSet.get_queryset request w) !! pk
       = Some (p, s) ->
     let w' := (ProductViewSet.destroy request pk w).2 in
     forall k x,
       tests w !! k = Some x ->
       if decide (Test.product x = pk)
       then tests w' !! k = None /\ history_of k w' = []
       else tests w' !! k = Some x /\ history_of k w' = history_of k w).
Proof.
  repeat apply conj;
    try lazymatch goal with
        | |- forall _ : _, appends_history _ => intros ?
        end.
  15: { intros w p s Hw Hfound. cbv zeta.
        pose proof (proj1 (product_filtered_row _ _ _ _ _) Hfound) as [Hq _].
        destruct (product_in_queryset _ _ _ _ _ Hq) as [Hp _].
        destruct (consistent_product _ _ _ Hw Hp) as [Hid _].
        rewrite (destroy_product_run request pk w p s Hfound Hid). simpl.
        intros k x Hx. case_decide as Hmine.
        - split.
          + apply map_lookup_filter_None. right. intros x' Hx'. simpl. congruence.
          + unfold history_of. simpl. rewrite history_of_filter.
            apply filter_none. intros h Hh.
            apply list_elem_of_filter in Hh as [Hk _]. rewrite Hk.
            by rewrite (proj2 (map_lookup_filter_Some _ _ _ _) (conj Hx Hmine)).
        - split.
          + apply map_lookup_filter_Some. done.
          + unfold history_of at 1. simpl. rewrite history_of_filter.
            apply filter_all. intros h Hh.
            apply list_elem_of_filter in Hh as [Hk _]. rewrite Hk.
            apply map_lookup_filter_None. right. intros x' Hx'. simpl. congruence. }
  14: { intros w x p Hw Hq. cbv zeta.
        destruct (test_in_queryset _ _ _ _ _ Hq) as [Hx _].
        pose proof (consistent_test _ _ _ Hw Hx) as Hid.
        rewrite (destroy_test_run request pk w x p Hq Hid). simpl.
        split; [apply lookup_delete_eq|].
        unfold history_of at 1 2. simpl. rewrite !history_of_filter.
        split; [|split].
        - apply filter_none. intros h Hh.
          apply list_elem_of_filter in Hh as [Hk _]. by intros Hne.
        - intros k Hk. rewrite history_of_filter. apply filter_all. intros h Hh.
          apply list_elem_of_filter in Hh as [Hhk _]. congruence.
        - intros Hsome Hprefix.
          destruct (history_of pk w) as [|h hs] eqn:Hhist; [done|].
          assert (Hin : h ∈ history_of pk w) by (rewrite Hhist; left).
          apply list_elem_of_filter in Hin as [Hhk Hin].
          apply prefix_length in Hprefix.
          pose proof (length_filter_lt (fun h => TestHistory.test h <> pk)
                        (test_history w) h Hin) as Hlt.
          apply (Nat.lt_irrefl (length (test_history w))).
          eapply Nat.le_lt_trans; [exact Hprefix|]. apply Hlt. by intros Hne. }
  13: { intros i w. unfold Timer_run. destruct (timers w !! i) as [t|]; [|done].
        assert (Ha : appends_history (ReportViewSet.complete_report (captured_report t))).
        { unfold ReportViewSet.complete_report, Report_save. append_only. }
        exact (Ha (set_timers (delete i (timers w)) w)). }
  all: unfold ProductViewSet.submit, ProductViewSet.get_object,
         TestViewSet.start, TestViewSet.complete, TestViewSet.update,
         TestViewSet.get_object, TestViewSet.perform_create, TestSerializer.update,
         TestSerializer.super_update, TestSerializer.create,
         ProductViewSet_perform_create, ProductCreateSerializer.save,
         ReportViewSet.perform_create, ReportSerializer.save,
         ReportViewSet.status_check, ReportViewSet.download, ReportViewSet.get_object,
         NotificationViewSet.mark_read, NotificationViewSet.get_object,
         TestAdmin.mark_as_completed, TestAdmin.mark_as_in_progress,
         TestAdmin.queryset_update_status, get_object_or_404,
         Product_save, Test_save, TestHistory_objects_create, Product_supplier,
         Notification_objects_create, Notification_save.
  all: append_only.
Qed.

Lemma history_removed_only_by_destroy_witness :
  let w' := (TestViewSet.destroy (Sample.request Sample.root ∅) 20%N
               (Fixture.two_tests "scheduled")).2 in
  history_of 20%N w' = [] /\ history_of 21%N w' = [Fixture.wear_created].
Proof.
  destruct (history_removed_only_by_destroy (Sample.request Sample.root ∅) 20%N)
    as (_ & _ & _ & _ & _ & _ & _ & _ & _ & _ & _ & _ & _ & Htest & _).
  destruct (Htest (Fixture.two_tests "scheduled") (Sample.safety "scheduled")
              (Sample.widget "submitted"))
    as (_ & Hgone & Hothers & _).
  - refine (bool_decide_unpack (consistent _) _). vm_compute. exact I.
  - vm_compute. reflexivity.
  - cbv zeta. split; [exact Hgone|]. rewrite Hothers by discriminate. reflexivity.
Defined.

(** ** A call on one test leaves the other tests alone *)

(** X13. [start], [complete] and the generic update only ever write the
    test they are called on: every test stored under another key is the
    same after the call, however the call ends. *)
Theorem other_tests_untouched request pk w k :
  consistent w -> k <> pk ->
  tests (TestViewSet.start request pk w).2 !! k = tests w !! k /\
  tests (TestViewSet.complete request pk w).2 !! k = tests w !! k /\
  forall vd, tests (TestViewSet.update request pk vd w).2 !! k = tests w !! k.
Proof.
  intros Hw Hk.
  destruct (TestViewSet.get_queryset request w !! pk) as [[x p]|] eqn:Hq; cycle 1.
  { unfold TestViewSet.start, TestViewSet.complete, TestViewSet.update,
      TestViewSet.get_object, get_object_or_404.
    repeat apply conj; [| |intros vd]; run; rewrite Hq; reflexivity. }
  destruct (test_in_queryset _ _ _ _ _ Hq) as [Hx Hp].
  pose proof (consistent_test _ _ _ Hw Hx) as Hid.
  destruct (consistent_product _ _ _ Hw Hp) as (_ & s & Hs & _).
  repeat apply conj; [| |intros vd].
  - destruct (decide (Test.status x = "scheduled")) as [Hst|Hst].
    + rewrite (start_run request pk w x p Hq Hid Hst). simpl.
      by rewrite lookup_insert_ne.
    + unfold TestViewSet.start, TestViewSet.get_object, get_object_or_404.
      run. rewrite Hq. simpl. by rewrite (proj2 (str_ne_true _ _) Hst).
  - destruct (truthy (data request !! "result_status")) eqn:Ht.
    + apply truthy_true in Ht as (rs & Hrs & Hne).
      rewrite (complete_run request pk w x p s rs Hq Hid Hs Hrs Hne). simpl.
      by rewrite lookup_insert_ne.
    + unfold TestViewSet.complete, TestViewSet.get_object, get_object_or_404.
      run. rewrite Hq. simpl. by rewrite Ht.
  - destruct (products w !! Test.product (TestSerializer.setattrs x vd)) eqn:Hfk.
    + rewrite (update_run request pk vd w x p Hq Hid) by (rewrite Hfk; eauto).
      simpl. by rewrite lookup_insert_ne.
    + unfold TestViewSet.update, TestViewSet.get_object, get_object_or_404.
      run. rewrite Hq. simpl. rewrite bind_run.
      unfold TestSerializer.update, TestSerializer.super_update, Test_save.
      unfold TestSerializer.setattrs in *. simpl in Hfk.
      destruct (TestSerializer.status_changes x vd); run.
      * rewrite TestHistory_objects_create_run by (rewrite Hid; eauto). run.
        rewrite Hfk. reflexivity.
      * rewrite Hfk. reflexivity.
Qed.

Lemma other_tests_untouched_witness :
  tests (TestViewSet.complete (Sample.request Sample.root Sample.passed) 20%N
           (Fixture.two_tests "scheduled")).2 !! 21%N
  = Some Fixture.wear.
Proof.
  destruct (other_tests_untouched (Sample.request Sample.root Sample.passed) 20%N
              (Fixture.two_tests "scheduled") 21%N)
    as (_ & Hcomplete & _).
  - refine (bool_decide_unpack (consistent _) _). vm_compute. exact I.
  - discriminate.
  - rewrite Hcomplete. reflexivity.
Defined.

(** ** Which profiles a caller sees *)

(** X14. [SupplierViewSet.get_queryset]: staff gets every stored
    profile; anyone else gets their own profile and nothing else, so a
    lookup of another supplier's key finds no row. *)
Theorem supplier_queryset_own_profile request w :
  consistent w ->
  (Supplier.is_staff (user request) = true ->
   SupplierViewSet.get_queryset request w = suppliers w) /\
  (Supplier.is_staff (user request) = false ->
   forall k,
     SupplierViewSet.get_queryset request w !! k =
     if decide (k = Supplier.supplier_id (user request))
     then suppliers w !! k else None).
Proof.
  intros [(Hkeys & _) _]. unfold SupplierViewSet.get_queryset. split.
  - intros ->. reflexivity.
  - intros -> k. case_decide as Hk.
    + destruct (suppliers w !! k) as [s|] eqn:Hs.
      * apply map_lookup_filter_Some. split; [done|]. simpl.
        rewrite (Hkeys _ _ Hs). exact Hk.
      * apply map_lookup_filter_None. left. exact Hs.
    + apply map_lookup_filter_None. right. intros s Hs. simpl.
      rewrite (Hkeys _ _ Hs). exact Hk.
Qed.

Lemma supplier_queryset_own_profile_witness :
  SupplierViewSet.get_queryset (Sample.request Sample.bob ∅)
    (Sample.world "draft" "scheduled" "generating") !! 1%N = None.
Proof.
  apply (proj2 (supplier_queryset_own_profile (Sample.request Sample.bob ∅)
                  (Sample.world "draft" "scheduled" "generating")
                  (sample_world_consistent _ _ _)) eq_refl 1%N).
Defined.

(** ** Creating a product *)

Lemma product_create_run request vd w :
  is_Some (suppliers w !! Supplier.supplier_id (user request)) ->
  products w !! uuid_source w (uuid_draws w) = None ->
  ProductCreateSerializer.sku_taken
    (default None (ProductCreateSerializer.sku vd)) w = false ->
  let p := Product.mk (uuid_source w (uuid_draws w))
             (Supplier.supplier_id (user request))
             (default EmptyString (ProductCreateSerializer.name vd))
             (default None (ProductCreateSerializer.description vd))
             (default EmptyString (ProductCreateSerializer.category vd))
             (default None (ProductCreateSerializer.sku vd))
             "draft" None None None
             (default empty_dict (ProductCreateSerializer.metadata vd))
             (clock w (clock_reads w)) (clock w (1 + clock_reads w)%nat) 1 in
  ProductViewSet_perform_create request vd w =
    (Return p,
     Build_World (suppliers w) (<[Product.product_id p := p]> (products w))
       (tests w) (test_history w) (reports w) (notifications w) (timers w)
       (clock w) (2 + clock_reads w)%nat (uuid_source w) (1 + uuid_draws w)%nat).
Proof.
  intros [s Hs] Hfresh Hsku.
  unfold ProductViewSet_perform_create, ProductCreateSerializer.save.
  run. rewrite Hs, Hfresh.
  match goal with |- context [ProductCreateSerializer.sku_taken ?v ?x] =>
    change (ProductCreateSerializer.sku_taken v x)
      with (ProductCreateSerializer.sku_taken v w)
  end.
  rewrite Hsku. run. reflexivity.
Qed.

(** X15. A product created through [perform_create] is a 'draft' owned
    by the caller, stored under a fresh key with no dates set.  A request
    of the caller that does not filter by status or category, and whose
    search terms, if it has any, all occur in the name, category or sku
    just written, then finds it and can submit it. *)
Theorem product_create_then_submit request vd w :
  is_Some (suppliers w !! Supplier.supplier_id (user request)) ->
  products w !! uuid_source w (uuid_draws w) = None ->
  ProductCreateSerializer.sku_taken
    (default None (ProductCreateSerializer.sku vd)) w = false ->
  truthy (q_status (query_params request)) = false ->
  truthy (q_category (query_params request)) = false ->
  SearchFilter.matches (SearchFilter.get_search_terms request)
    [Some (default EmptyString (ProductCreateSerializer.name vd));
     Some (default EmptyString (ProductCreateSerializer.category vd));
     default None (ProductCreateSerializer.sku vd)] = true ->
  exists p w1,
    ProductViewSet_perform_create request vd w = (Return p, w1) /\
    Product.product_id p = uuid_source w (uuid_draws w) /\
    Product.supplier p = Supplier.supplier_id (user request) /\
    Product.submission_status p = "draft" /\
    Product.submission_date p = None /\
    products w1 !! Product.product_id p = Some p /\
    (exists s, ProductViewSet.filter_queryset request
                 (ProductViewSet.get_queryset request w1) !! Product.product_id p
               = Some (p, s)) /\
    succeeded (ProductViewSet.submit request (Product.product_id p) w1).1.
Proof.
  intros Hsup Hfresh Hsku Hst Hcat Hmatch.
  pose proof (product_create_run request vd w Hsup Hfresh Hsku) as Hrun.
  cbv zeta in Hrun. destruct Hsup as [s Hs].
  eexists _, _. split; [exact Hrun|]. simpl.
  rewrite lookup_insert_eq. do 5 (split; [reflexivity|]).
  match type of Hrun with _ = (Return ?q, ?v) => set (p := q) in *; set (w1 := v) in * end.
  assert (Hq : ProductViewSet.filter_queryset request
                   (ProductViewSet.get_queryset request w1)
                   !! uuid_source w (uuid_draws w) = Some (p, s)).
  { apply product_filtered_row. split; [|exact Hmatch].
    apply product_queryset_row. subst w1 p. simpl.
    rewrite lookup_insert_eq. repeat split; try done.
    - intros Hyes. rewrite Hst in Hyes. discriminate.
    - intros Hyes. rewrite Hcat in Hyes. discriminate. }
  split; [eauto|].
  pose proof (submit_run request _ w1 p s Hq eq_refl eq_refl) as Hsub.
  cbv zeta in Hsub.
  eexists. split; [exact (f_equal fst Hsub) | reflexivity].
Qed.

Lemma product_create_then_submit_witness :
  exists p w1,
    ProductViewSet_perform_create (Fixture.searching Sample.bob "g-1 gadget")
      Fixture.gadget (Sample.world "draft" "scheduled" "generating") = (Return p, w1) /\
    succeeded (ProductViewSet.submit (Fixture.searching Sample.bob "g-1 gadget")
                 (Product.product_id p) w1).1.
Proof.
  destruct (product_create_then_submit (Fixture.searching Sample.bob "g-1 gadget")
              Fixture.gadget (Sample.world "draft" "scheduled" "generating"))
    as (p & w1 & Hrun & _ & _ & _ & _ & _ & _ & Hsubmit).
  - vm_compute. eexists. reflexivity.
  - vm_compute. reflexivity.
  - vm_compute. reflexivity.
  - reflexivity.
  - reflexivity.
  - vm_compute. reflexivity.
  - exists p, w1. split; assumption.
Defined.

(** ** Notifications and who reads them *)

Lemma newest_first_cons row rows :
  newest_first (row :: rows) = insert_newest_first row (newest_first rows).
Proof. reflexivity. Qed.

Lemma insert_newest_first_perm n rows : insert_newest_first n rows ≡ₚ n :: rows.
Proof.
  induction rows as [|row rest IH]; simpl; [done|].
  destruct (Notification.created_at n <? Notification.created_at row); [|done].
  rewrite IH. apply Permutation_swap.
Qed.

(** Ordering neither adds nor drops a row. *)
Lemma newest_first_perm rows : newest_first rows ≡ₚ rows.
Proof.
  induction rows as [|row rest IH]; [done|].
  by rewrite newest_first_cons, insert_newest_first_perm, IH.
Qed.

Lemma elem_of_newest_first n rows : n ∈ newest_first rows <-> n ∈ rows.
Proof. by rewrite newest_first_perm. Qed.

(** A row newer than every row of the table comes first. *)
Lemma newest_first_snoc rows n :
  (forall row, row ∈ rows ->
               Notification.created_at row < Notification.created_at n) ->
  newest_first (rows ++ [n]) = n :: newest_first rows.
Proof.
  induction rows as [|row rest IH]; intros Hnew; [reflexivity|].
  rewrite <- app_comm_cons, !newest_first_cons.
  rewrite IH by (intros row' Hin; apply Hnew; by right).
  simpl. rewrite (proj2 (Z.ltb_lt _ _)) by (apply Hnew; by left). reflexivity.
Qed.

(** X16. The notification written by [submit] shows up in the owning
    supplier's notifications, 'sent' and unread, beside the ones that
    were there; the list being newest first, it is the first entry when
    its [created_at] is later than that of the entries it joins.  No
    other caller's notifications change, staff included. *)
Theorem submit_notifies_owner request pk w p s reader :
  consistent w ->
  ProductViewSet.filter_queryset request (ProductViewSet.get_queryset request w) !! pk
    = Some (p, s) ->
  Product.submission_status p = "draft" ->
  let w1 := (ProductViewSet.submit request pk w).2 in
  (Supplier.supplier_id (user reader) = Product.supplier p ->
   exists n,
     NotificationViewSet.get_queryset reader w1
       ≡ₚ n :: NotificationViewSet.get_queryset reader w /\
     Notification.notification_type n = "product_submitted" /\
     Notification.status n = "sent" /\
     Notification.read_at n = None /\
     Notification.created_at n = clock w (3 + clock_reads w)%nat /\
     ((forall m, m ∈ NotificationViewSet.get_queryset reader w ->
                 Notification.created_at m < Notification.created_at n) ->
      NotificationViewSet.get_queryset reader w1
        = n :: NotificationViewSet.get_queryset reader w)) /\
  (Supplier.supplier_id (user reader) <> Product.supplier p ->
   NotificationViewSet.get_queryset reader w1
     = NotificationViewSet.get_queryset reader w).
Proof.
  intros Hw Hfound Hd.
  pose proof (proj1 (product_filtered_row _ _ _ _ _) Hfound) as [Hq _].
  destruct (product_in_queryset _ _ _ _ _ Hq) as [Hp Hs].
  destruct (consistent_product _ _ _ Hw Hp) as (Hid & s' & Hs' & Hsid).
  assert (s' = s) as -> by congruence.
  rewrite (submit_run request pk w p s Hfound Hid Hd). cbv zeta. simpl.
  unfold NotificationViewSet.get_queryset. simpl. rewrite filter_app. split.
  - intros Hreader.
    match goal with |- context [filter _ [?m]] => exists m end.
    rewrite filter_cons_True by (simpl; split; [congruence | reflexivity]).
    rewrite filter_nil. split; [|do 4 (split; [reflexivity|])].
    + rewrite !newest_first_perm. symmetry. apply Permutation_cons_append.
    + intros Hnew. apply newest_first_snoc.
      intros row Hrow. apply Hnew. by apply elem_of_newest_first.
  - intros Hreader.
    rewrite filter_cons_False by (simpl; intros [Hrec _]; congruence).
    by rewrite filter_nil, app_nil_r.
Qed.

Lemma submit_notifies_owner_witness :
  exists n,
    NotificationViewSet.get_queryset (Sample.request Sample.alice ∅)
      (ProductViewSet.submit (Sample.request Sample.alice ∅) 10%N
         (Fixture.inbox (Sample.world "draft" "scheduled" "generating"))).2
    = [n; Fixture.notice] /\
    Notification.notification_type n = "product_submitted".
Proof.
  destruct (submit_notifies_owner (Sample.request Sample.alice ∅) 10%N
              (Fixture.inbox (Sample.world "draft" "scheduled" "generating"))
              (Sample.widget "draft") Sample.alice (Sample.request Sample.alice ∅))
    as [Hown _].
  - refine (bool_decide_unpack (consistent _) _). vm_compute. exact I.
  - vm_compute. reflexivity.
  - reflexivity.
  - destruct (Hown eq_refl) as (n & _ & Htype & _ & _ & Hcreated & Hfirst).
    exists n. split; [|exact Htype].
    apply Hfirst. intros m Hm.
    apply elem_of_newest_first, list_elem_of_filter in Hm as [_ Hm].
    apply list_elem_of_singleton in Hm. subst m.
    rewrite Hcreated. reflexivity.
Defined.

Lemma notification_found request pk w n :
  NotificationViewSet.get_object request pk w = (Return n, w) ->
  n ∈ notifications w /\ Notification.notification_id n = pk /\
  Notification.recipient_id n = Supplier.supplier_id (user request) /\
  Notification.recipient_type n = "supplier".
Proof.
  unfold NotificationViewSet.get_object. run.
  destruct (head _) as [n'|] eqn:Hhead; [|discriminate].
  intros [= ->]. apply head_Some_elem_of in Hhead.
  apply list_elem_of_filter in Hhead as [Hpk Hin].
  apply elem_of_newest_first, list_elem_of_filter in Hin as [[Hrec Hty] Hin]. done.
Qed.

(** X17. [mark_read] on a notification the caller can see: the row
    becomes 'read' with [read_at] the clock reading of the call, whatever
    its status was before (a second call moves [read_at]); its other
    columns, the number of rows and every row with another key stay as
    they were. *)
Theorem mark_read_marks request pk w n :
  NotificationViewSet.get_object request pk w = (Return n, w) ->
  exists n' w',
    NotificationViewSet.mark_read request pk w = (Return n', w') /\
    Notification.status n' = "read" /\
    Notification.read_at n' = Some (clock w (clock_reads w)) /\
    n' = Notification_set_read_at (Notification.read_at n')
           (Notification_set_status "read" n) /\
    n' ∈ notifications w' /\
    length (notifications w') = length (notifications w) /\
    forall i row,
      notifications w !! i = Some row ->
      Notification.notification_id row <> pk ->
      notifications w' !! i = Some row.
Proof.
  intros Hget.
  destruct (notification_found _ _ _ _ Hget) as (Hin & Hpk & _).
  unfold NotificationViewSet.mark_read. rewrite bind_run, Hget. run.
  unfold Notification_save. run.
  rewrite bool_decide_true by (apply Exists_exists; exists n; done). run.
  eexists _, _. split; [reflexivity|]. simpl.
  do 3 (split; [reflexivity|]). unfold rewrite_notification. split; [|split].
  - apply list_elem_of_fmap. exists n. split; [|done].
    by rewrite bool_decide_true.
  - apply length_fmap.
  - intros i row Hrow Hother. rewrite list_lookup_fmap, Hrow. simpl.
    rewrite bool_decide_false; [reflexivity | simpl; congruence].
Qed.

(** X18. [mark_read] on a key under which no notification is addressed
    to the caller as a supplier, be it absent or someone else's, raises
    [Http404] and writes nothing. *)
Theorem mark_read_foreign request pk w :
  (forall n, n ∈ notifications w -> Notification.notification_id n = pk ->
             ~ (Notification.recipient_id n = Supplier.supplier_id (user request)
                /\ Notification.recipient_type n = "supplier")) ->
  NotificationViewSet.mark_read request pk w = (Raise Http404, w).
Proof.
  intros Hnone.
  unfold NotificationViewSet.mark_read, NotificationViewSet.get_object. run.
  destruct (head _) as [n|] eqn:Hhead; [|reflexivity].
  apply head_Some_elem_of in Hhead.
  apply list_elem_of_filter in Hhead as [Hpk Hin].
  apply elem_of_newest_first, list_elem_of_filter in Hin as [Hmine Hin].
  destruct (Hnone n Hin Hpk Hmine).
Qed.

Lemma mark_read_marks_witness :
  exists n' w',
    NotificationViewSet.mark_read (Sample.request Sample.alice ∅) 50%N
      (Fixture.inbox (Sample.world "submitted" "scheduled" "generating"))
    = (Return n', w') /\
    Notification.status n' = "read".
Proof.
  destruct (mark_read_marks (Sample.request Sample.alice ∅) 50%N
              (Fixture.inbox (Sample.world "submitted" "scheduled" "generating"))
              Fixture.notice)
    as (n' & w' & Hrun & Hstatus & _).
  - reflexivity.
  - exists n', w'. split; assumption.
Defined.

Lemma mark_read_foreign_witness :
  NotificationViewSet.mark_read (Sample.request Sample.bob ∅) 50%N
    (Fixture.inbox (Sample.world "submitted" "scheduled" "generating"))
  = (Raise Http404,
     Fixture.inbox (Sample.world "submitted" "scheduled" "generating")).
Proof.
  apply (mark_read_foreign (Sample.request Sample.bob ∅) 50%N
           (Fixture.inbox (Sample.world "submitted" "scheduled" "generating"))).
  intros n Hin _ [Hrec _]. simpl in Hin.
  apply list_elem_of_singleton in Hin. subst n. discriminate.
Defined.

(** ** The admin's bulk actions *)

Lemma queryset_update_status_run queryset status w :
  TestAdmin.queryset_update_status queryset status w =
    (Return (size (filter (fun kv => queryset kv.2 = true) (tests w))),
     set_tests ((fun x => if queryset x then Test.set_status status x else x)
                <$> tests w) w).
Proof. reflexivity. Qed.

(** A status written behind the back of the history table leaves the
    records telling another story. *)
Lemma silent_status_change_breaks_trail pk w w' x x' :
  trail_complete pk w = true ->
  tests w !! pk = Some x ->
  tests w' !! pk = Some x' ->
  test_history w' = test_history w ->
  Test.status x' <> Test.status x ->
  trail_complete pk w' = false.
Proof.
  intros Htrail Hx Hx' Hh Hne.
  apply trail_complete_true in Htrail as [_ Hreplay].
  rewrite Hx in Hreplay. simpl in Hreplay.
  unfold trail_complete, history_of in *. rewrite Hh, Hreplay, Hx'. simpl.
  rewrite bool_decide_false by congruence. apply andb_false_r.
Qed.

(** X19. The bulk actions write the status column and nothing else.
    A selected test becomes 'completed' (or 'in_progress') with its
    timestamps and result columns as they were; tests that were not
    selected stay as they were; no history record and no notification is
    written, so the audit trail of a selected test whose status changed
    is no longer complete. *)
Theorem bulk_actions_bypass_audit queryset w pk x :
  tests w !! pk = Some x ->
  queryset x = true ->
  let w1 := (TestAdmin.mark_as_completed queryset w).2 in
  let w2 := (TestAdmin.mark_as_in_progress queryset w).2 in
  tests w1 !! pk = Some (Test.set_status "completed" x) /\
  tests w2 !! pk = Some (Test.set_status "in_progress" x) /\
  (forall k y, tests w !! k = Some y -> queryset y = false ->
               tests w1 !! k = Some y /\ tests w2 !! k = Some y) /\
  test_history w1 = test_history w /\ test_history w2 = test_history w /\
  notifications w1 = notifications w /\ notifications w2 = notifications w /\
  (trail_complete pk w = true -> Test.status x <> "completed" ->
   trail_complete pk w1 = false) /\
  (trail_complete pk w = true -> Test.status x <> "in_progress" ->
   trail_complete pk w2 = false).
Proof.
  intros Hx Hsel. cbv zeta.
  unfold TestAdmin.mark_as_completed, TestAdmin.mark_as_in_progress.
  rewrite !bind_run, !queryset_update_status_run. simpl.
  assert (H1 : forall status,
             ((fun y => if queryset y then Test.set_status status y else y)
              <$> tests w) !! pk = Some (Test.set_status status x)).
  { intros status. by rewrite lookup_fmap, Hx; simpl; rewrite Hsel. }
  rewrite !H1. do 2 (split; [reflexivity|]). split.
  { intros k y Hy Hno. rewrite !lookup_fmap, Hy. simpl. by rewrite Hno. }
  do 4 (split; [reflexivity|]). split.
  - intros Htrail Hne.
    eapply (silent_status_change_breaks_trail pk w _ x); simpl; try done;
      simpl; congruence.
  - intros Htrail Hne.
    eapply (silent_status_change_breaks_trail pk w _ x); simpl; try done;
      simpl; congruence.
Qed.

Lemma bulk_actions_bypass_audit_witness :
  trail_complete 20%N
    (TestAdmin.mark_as_completed (fun _ => true)
       (Sample.world "submitted" "pending" "generating")).2 = false.
Proof.
  apply (bulk_actions_bypass_audit (fun _ => true)
           (Sample.world "submitted" "pending" "generating") 20%N
           (Sample.safety "pending")).
  - vm_compute. reflexivity.
  - reflexivity.
  - vm_compute. reflexivity.
  - discriminate.
Defined.

(** ** Progress counters *)

(** X20. What [complete] does to the counters behind a product's
    progress: the number of its tests stays, and the number of its
    completed tests goes up by one unless the test was 'completed'
    already; completed tests never outnumber the tests. *)
Theorem complete_counts request pk w x p rs :
  consistent w ->
  TestViewSet.get_queryset request w !! pk = Some (x, p) ->
  data request !! "result_status" = Some rs -> rs <> EmptyString ->
  let w1 := (TestViewSet.complete request pk w).2 in
  Product_tests_count p w1 = Product_tests_count p w /\
  Product_tests_completed p w1 =
    (if decide (Test.status x = "completed")
     then Product_tests_completed p w
     else S (Product_tests_completed p w)) /\
  (Product_tests_completed p w1 <= Product_tests_count p w1)%nat.
Proof.
  intros Hw Hq Hrs Hne.
  destruct (test_in_queryset _ _ _ _ _ Hq) as [Hx Hp].
  pose proof (consistent_test _ _ _ Hw Hx) as Hid.
  destruct (consistent_product _ _ _ Hw Hp) as (Hpid & s & Hs & _).
  rewrite (complete_run request pk w x p s rs Hq Hid Hs Hrs Hne). cbv zeta.
  unfold Product_tests_count, Product_tests_completed. simpl.
  rewrite (map_filter_insert_True (fun kv => Test.product kv.2 = Product.product_id p))
    by (simpl; congruence).
  rewrite (map_filter_insert_True (fun kv => Test.status kv.2 = "completed"))
    by reflexivity.
  assert (Hmine : filter (fun kv => Test.product kv.2 = Product.product_id p) (tests w)
                    !! pk = Some x).
  { apply map_lookup_filter_Some. split; [done | simpl; congruence]. }
  split; [|split].
  - apply map_size_insert_Some. eauto.
  - rewrite map_size_insert. case_decide as Hst.
    + erewrite (proj2 (map_lookup_filter_Some _ _ _ _)); [reflexivity|]. done.
    + rewrite (proj2 (map_lookup_filter_None _ _ _)); [reflexivity|].
      right. intros y Hy. simpl. congruence.
  - apply map_subseteq_size, insert_mono, map_filter_subseteq.
Qed.

Lemma complete_counts_witness :
  Product_tests_completed (Sample.widget "submitted")
    (TestViewSet.complete (Sample.request Sample.root Sample.passed) 20%N
       (Sample.world "submitted" "in_progress" "generating")).2
  = S (Product_tests_completed (Sample.widget "submitted")
         (Sample.world "submitted" "in_progress" "generating")).
Proof.
  apply (complete_counts (Sample.request Sample.root Sample.passed) 20%N
           (Sample.world "submitted" "in_progress" "generating")
           (Sample.safety "in_progress") (Sample.widget "submitted") "pass").
  - apply sample_world_consistent.
  - vm_compute. reflexivity.
  - vm_compute. reflexivity.
  - discriminate.
Defined.

(** ** Uploading a file *)

(** X21. [ProductFileViewSet.perform_create] checks ownership before it
    touches the upload.  For a missing product it raises [Http404]; for a
    caller who is neither the product's supplier nor staff it raises
    [PermissionDenied]; in both cases nothing is written and the
    serializer is not run.  For the supplier and for staff the serializer
    is run once, with the upload's name and size, the digest of its bytes,
    the upper-cased text after the last dot of its name as type, status
    'validated' and the clock reading of the call. *)
Theorem upload_ownership (sha256_hexdigest upper : string -> string)
    (serializer_save : ProductFileFields -> M unit) request product_pk file_obj w :
  let perform_create :=
    ProductFileViewSet_perform_create sha256_hexdigest upper serializer_save in
  consistent w ->
  (products w !! product_pk = None ->
   perform_create request product_pk file_obj w = (Raise Http404, w)) /\
  (forall p,
     products w !! product_pk = Some p ->
     Supplier.is_staff (user request) = false ->
     Product.supplier p <> Supplier.supplier_id (user request) ->
     perform_create request product_pk file_obj w = (Raise PermissionDenied, w)) /\
  (forall p,
     products w !! product_pk = Some p ->
     Supplier.is_staff (user request) = true
     \/ Product.supplier p = Supplier.supplier_id (user request) ->
     perform_create request product_pk file_obj w =
       serializer_save
         {| pf_product := p;
            pf_file_name := file_name file_obj;
            pf_file_type := upper (last_piece (file_name file_obj));
            pf_file_size := file_size file_obj;
            pf_file_hash := sha256_hexdigest (file_content file_obj);
            pf_upload_status := "validated";
            pf_validated_at := clock w (clock_reads w) |}
         (set_clock_reads (S (clock_reads w)) w)).
Proof.
  intros perform_create Hw. subst perform_create.
  unfold ProductFileViewSet_perform_create, get_product_or_404, get_object_or_404,
    Product_supplier.
  repeat apply conj.
  - intros Hnone. run. rewrite Hnone. reflexivity.
  - intros p Hp Hstaff Hother.
    destruct (consistent_product _ _ _ Hw Hp) as (_ & s & Hs & Hsid).
    run. rewrite Hp. run. rewrite Hs. run.
    rewrite Hstaff, bool_decide_false by congruence. reflexivity.
  - intros p Hp Hmay.
    destruct (consistent_product _ _ _ Hw Hp) as (_ & s & Hs & Hsid).
    run. rewrite Hp. run. rewrite Hs. run.
    assert (negb (bool_decide (Supplier.supplier_id s
                               = Supplier.supplier_id (user request)))
            && negb (Supplier.is_staff (user request)) = false) as ->.
    { destruct Hmay as [-> | Hown]; [apply andb_false_r|].
      rewrite bool_decide_true by congruence. reflexivity. }
    run. reflexivity.
Qed.

Lemma upload_ownership_witness :
  ProductFileViewSet_perform_create (fun s => s) (fun s => s) (fun _ => mret tt)
    (Sample.request Sample.bob ∅) 10%N
    {| file_name := "sheet.pdf"; file_size := 3; file_content := "abc" |}
    (Sample.world "draft" "scheduled" "generating")
  = (Raise PermissionDenied, Sample.world "draft" "scheduled" "generating").
Proof.
  apply (upload_ownership (fun s => s) (fun s => s) (fun _ => mret tt)
           (Sample.request Sample.bob ∅) 10%N
           {| file_name := "sheet.pdf"; file_size := 3; file_content := "abc" |}
           (Sample.world "draft" "scheduled" "generating")
           (sample_world_consistent _ _ _)) with (p := Sample.widget "draft").
  - vm_compute. reflexivity.
  - reflexivity.
  - vm_compute. discriminate.
Defined.

(** ** The file type taken from a name *)

Lemma split_dot_nonempty s : split_dot s <> [].
Proof.
  destruct s as [|c s]; simpl; [done|].
  destruct (Ascii.eqb c "."); [done|]. by destruct (split_dot s).
Qed.

Lemma split_dot_no_dot s : has_dot s = false -> split_dot s = [s].
Proof.
  induction s as [|c s IH]; simpl; [done|].
  destruct (Ascii.eqb c "."); simpl; [done|].
  intros Hs. by rewrite (IH Hs).
Qed.

Lemma split_dot_pieces s piece : piece ∈ split_dot s -> has_dot piece = false.
Proof.
  revert piece. induction s as [|c s IH]; simpl; intros piece Hin.
  - apply list_elem_of_singleton in Hin. by subst.
  - destruct (Ascii.eqb c ".") eqn:Hc.
    + apply elem_of_cons in Hin as [->|Hin]; [done | by apply IH].
    + destruct (split_dot s) as [|first rest] eqn:Hsplit.
      * apply list_elem_of_singleton in Hin. subst. simpl. by rewrite Hc.
      * apply elem_of_cons in Hin as [->|Hin].
        -- simpl. rewrite Hc. simpl. apply IH. left.
        -- apply IH. by right.
Qed.

Lemma join_split_dot s : join_dot (split_dot s) = s.
Proof.
  induction s as [|c s IH]; simpl; [done|].
  pose proof (split_dot_nonempty s) as Hne.
  destruct (Ascii.eqb c ".") eqn:Hc.
  - apply Ascii.eqb_eq in Hc. subst c.
    destruct (split_dot s) as [|first rest]; [done|].
    simpl in *. by rewrite IH.
  - destruct (split_dot s) as [|first rest]; [done|].
    destruct rest as [|second rest]; simpl in *; by rewrite <- IH.
Qed.

(** X22. The file type is cut off the name as Python's
    [name.split('.')[-1]] does: splitting at the dots and joining again
    gives the name back; the last piece has no dot in it; a name without a
    dot is its own last piece (so the whole name becomes the type); and a
    name with a dot is some stem, a dot, and the last piece. *)
Theorem last_piece_spec s :
  join_dot (split_dot s) = s /\
  has_dot (last_piece s) = false /\
  (has_dot s = false -> last_piece s = s) /\
  (has_dot s = true -> exists stem, s = stem +:+ "." +:+ last_piece s).
Proof.
  split; [apply join_split_dot|]. split; [|split].
  - unfold last_piece. destruct (last (split_dot s)) as [piece|] eqn:Hlast; [|done].
    simpl. apply (split_dot_pieces s). by apply last_Some_elem_of.
  - intros Hs. unfold last_piece. by rewrite (split_dot_no_dot s Hs).
  - unfold last_piece. induction s as [|c s IH]; simpl; [done|].
    pose proof (split_dot_nonempty s) as Hne.
    destruct (Ascii.eqb c ".") eqn:Hc; simpl.
    + intros _. apply Ascii.eqb_eq in Hc. subst c.
      destruct (split_dot s) as [|first rest] eqn:Hsplit; [done|].
      rewrite last_cons_cons.
      destruct (has_dot s) eqn:Hs.
      * destruct (IH eq_refl) as [stem Hstem]. exists (String "." stem).
        exact (f_equal (String ".") Hstem).
      * rewrite (split_dot_no_dot s Hs) in Hsplit. simplify_eq/=.
        by exists EmptyString.
    + intros Hs. destruct (IH Hs) as [stem Hstem].
      destruct (split_dot s) as [|first rest] eqn:Hsplit; [done|].
      destruct rest as [|second rest].
      * pose proof (split_dot_pieces s first) as Hfirst.
        rewrite Hsplit in Hfirst.
        pose proof (join_split_dot s) as Hjoin. rewrite Hsplit in Hjoin.
        simpl in Hjoin. rewrite <- Hjoin, Hfirst in Hs by left. discriminate.
      * rewrite last_cons_cons. rewrite last_cons_cons in Hstem.
        exists (String c stem). exact (f_equal (String c) Hstem).
Qed.

Lemma last_piece_spec_witness : last_piece "README" = "README".
Proof. apply (last_piece_spec "README"). reflexivity. Defined.

(** ** The earlier properties at the sample world *)

Lemma views_preserve_witness :
  consistent (TestViewSet.complete (Sample.request Sample.bob Sample.passed) 20%N
                (Sample.world "submitted" "scheduled" "generating")).2.
Proof.
  destruct (views_preserve (Sample.request Sample.bob Sample.passed) 20%N)
    as (_ & _ & Hcomplete & _).
  apply Hcomplete, sample_world_consistent.
Defined.


Lemma perform_create_starts_trail_witness :
  exists x w',
    TestViewSet.perform_create (Sample.request Sample.root ∅) Sample.new_test
      (Sample.world "submitted" "scheduled" "generating") = (Return x, w') /\
    trail_complete (Test.test_id x) w' = true.
Proof.
  destruct (perform_create_starts_trail (Sample.request Sample.root ∅)
              Sample.new_test 10%N
              (Sample.world "submitted" "scheduled" "generating"))
    as (x & w' & Hrun & _ & _ & _ & Htrail).
  - apply sample_world_consistent.
  - reflexivity.
  - vm_compute. eexists. reflexivity.
  - vm_compute. reflexivity.
  - exists x, w'. split; assumption.
Defined.

Lemma start_keeps_trail_witness :
  trail_complete 20%N
    (TestViewSet.start (Sample.request Sample.root ∅) 20%N
       (Fixture.scheduled_world)).2 = true.
Proof.
  apply (start_keeps_trail (Sample.request Sample.root ∅) 20%N
           Fixture.scheduled_world (Sample.safety "scheduled")
           (Sample.widget "submitted")).
  - refine (bool_decide_unpack (consistent Fixture.scheduled_world) _).
    vm_compute. exact I.
  - vm_compute. reflexivity.
  - reflexivity.
  - vm_compute. reflexivity.
Defined.

Lemma update_keeps_trail_witness :
  trail_complete 20%N
    (TestViewSet.update (Sample.request Sample.root ∅) 20%N
       (Sample.new_status "scheduled")
       (Sample.world "submitted" "pending" "generating")).2 = true.
Proof.
  apply (update_keeps_trail (Sample.request Sample.root ∅) 20%N
           (Sample.new_status "scheduled")
           (Sample.world "submitted" "pending" "generating")
           (Sample.safety "pending") (Sample.widget "submitted")).
  - apply sample_world_consistent.
  - vm_compute. reflexivity.
  - vm_compute. eexists. reflexivity.
  - vm_compute. reflexivity.
Defined.

Lemma complete_history_record_witness :
  exists h,
    test_history (TestViewSet.complete (Sample.request Sample.root Sample.passed)
                    20%N (Sample.world "submitted" "pending" "generating")).2
    = test_history (Sample.world "submitted" "pending" "generating") ++ [h] /\
    TestHistory.old_status h = Some "completed" /\
    TestHistory.new_status h = Some "completed".
Proof.
  apply (complete_history_record (Sample.request Sample.root Sample.passed) 20%N
           (Sample.world "submitted" "pending" "generating")
           (Sample.safety "pending") (Sample.widget "submitted") Sample.alice "pass").
  - vm_compute. reflexivity.
  - reflexivity.
  - vm_compute. reflexivity.
  - vm_compute. reflexivity.
  - discriminate.
Defined.
